(** * Hypixel player counts: the ingestion pipeline

    A shallow embedding of [src/ingestion/data_ingestion.py]
    (class [HypixelDataIngestor]) and the properties of its date planning,
    per-day fetch and merge steps.

    Conventions of the embedding.
    - A Python [date] is its proleptic Gregorian ordinal ([date.toordinal()]),
      an integer; [d - timedelta(days=k)] is then [d - k], and
      [(a - b).days] is [a - b].
    - A pandas [Timestamp] is the number of milliseconds since
      1970-01-01T00:00 (timezone-naive), an integer.
    - A column of player counts is [option Z]: [None] is pandas' missing
      value. pandas holds a column with a missing value as float64, which
      is exact for integers up to 2^53 in absolute value; the properties
      that speak of the values of counts carry that bound
      ([count_exact]).
    - Code that can raise returns a [result]; [Raise] is an exception that
      leaves the function.
    - What the network answers and what [pd.read_csv] makes of a text are
      inputs of the model (section variables). *)

From Stdlib Require Import ZArith String List Lia Bool.
From Stdlib Require Import Permutation Sorted DecimalString.
Import ListNotations.
Open Scope Z_scope.

(* ================================================================== *)
(** * Python: exceptions and [range] *)

Inductive exn : Type :=
| ConnectionError   (* requests.exceptions.ConnectionError *)
| Timeout           (* requests.exceptions.Timeout *)
| ParserError       (* pandas.errors.ParserError / EmptyDataError *)
| KeyError          (* a column the code indexes is missing *)
| ValueError        (* "cannot reindex on an axis with duplicate labels" *)
| TypeError         (* resample on an index that holds no datetime *)
| AttributeError.   (* [.date()] on the maximum of an empty column *)

Inductive result (A : Type) : Type :=
| Ok (a : A)
| Raise (e : exn).
Arguments Ok {A} a.
Arguments Raise {A} e.

Definition bind {A B : Type} (m : result A) (k : A -> result B) : result B :=
  match m with
  | Ok a => k a
  | Raise e => Raise e
  end.

Notation "x <- m ;; k" := (bind m (fun x => k))
  (at level 61, m at next level, right associativity).

(** [try: body / except Exception: return None], for a body that returns
    its value. *)
Definition try_except_None {A : Type} (body : result A) : option A :=
  match body with
  | Ok a => Some a
  | Raise _ => None
  end.

(** [range(start, stop)]; [range(stop)] is [range 0 stop]. *)
Definition range (start stop : Z) : list Z :=
  map (fun i => start + Z.of_nat i) (seq 0 (Z.to_nat (stop - start))).

(* ================================================================== *)
(** * The calendar of Python's [datetime] module *)

Module Calendar.

Definition date : Type := Z.

Definition is_leap (year : Z) : bool :=
  (year mod 4 =? 0) && (negb (year mod 100 =? 0) || (year mod 400 =? 0)).

Definition days_before_year (year : Z) : Z :=
  let y := year - 1 in
  y * 365 + y / 4 - y / 100 + y / 400.

Definition DAYS_IN_MONTH : list Z :=
  [-1; 31; 28; 31; 30; 31; 30; 31; 31; 30; 31; 30; 31].

Definition DAYS_BEFORE_MONTH : list Z :=
  [-1; 0; 31; 59; 90; 120; 151; 181; 212; 243; 273; 304; 334].

Definition days_before_month (year month : Z) : Z :=
  nth (Z.to_nat month) DAYS_BEFORE_MONTH 0
  + (if (2 <? month) && is_leap year then 1 else 0).

(** [date(year, month, day).toordinal()] *)
Definition ymd2ord (year month day : Z) : date :=
  days_before_year year + days_before_month year month + day.

Definition DI400Y : Z := days_before_year 401.
Definition DI100Y : Z := days_before_year 101.
Definition DI4Y : Z := days_before_year 5.

(** [(d.year, d.month, d.day)] of the date with ordinal [n]. *)
Definition ord2ymd (n : date) : Z * Z * Z :=
  let n := n - 1 in
  let n400 := n / DI400Y in
  let n := n mod DI400Y in
  let year := n400 * 400 + 1 in
  let n100 := n / DI100Y in
  let n := n mod DI100Y in
  let n4 := n / DI4Y in
  let n := n mod DI4Y in
  let n1 := n / 365 in
  let n := n mod 365 in
  let year := year + n100 * 100 + n4 * 4 + n1 in
  if (n1 =? 4) || (n100 =? 4) then (year - 1, 12, 31)
  else
    let leapyear := (n1 =? 3) && (negb (n4 =? 24) || (n100 =? 3)) in
    let month := Z.shiftr (n + 50) 5 in
    let preceding :=
      nth (Z.to_nat month) DAYS_BEFORE_MONTH 0
      + (if (2 <? month) && leapyear then 1 else 0) in
    if n <? preceding then
      let month := month - 1 in
      let preceding :=
        preceding
        - (nth (Z.to_nat month) DAYS_IN_MONTH 0
           + (if (month =? 2) && leapyear then 1 else 0)) in
      (year, month, n - preceding + 1)
    else (year, month, n - preceding + 1).

(** An aware [datetime] in UTC: its date and its time of day. *)
Record datetime : Type := mk_datetime {
  dt_date : date;
  hour : Z;
  minute : Z;
  second : Z
}.

(** [datetime(year, month, day, hour, minute, tzinfo=utc)] *)
Definition utc (year month day h m : Z) : datetime :=
  mk_datetime (ymd2ord year month day) h m 0.

(** The fields of a [datetime] are in their ranges. *)
Definition valid_time (now : datetime) : Prop :=
  0 <= hour now < 24 /\ 0 <= minute now < 60 /\ 0 <= second now < 60.

(** Seconds elapsed between the start of day 0 and [now]. *)
Definition instant (now : datetime) : Z :=
  dt_date now * 86400 + hour now * 3600 + minute now * 60 + second now.

(** The first instant after the calendar day [d]. *)
Definition end_of_day (d : date) : Z := (d + 1) * 86400.

End Calendar.
Import Calendar.

(* ================================================================== *)
(** * The pandas operations the ingestor calls *)

Module Pandas.

Definition Timestamp : Type := Z.

Definition HOUR : Z := 3600000.
Definition DAY : Z := 86400000.

(** A frame with the columns [Timestamp] and [Peak Player Count]
    (before the rename: [timestamp] and [playerCount]). *)
Definition Row : Type := (Timestamp * option Z)%type.
Definition DataFrame : Type := list Row.

(** [Series.dt.date] of one timestamp. *)
Definition dt_date_of (t : Timestamp) : date := ymd2ord 1970 1 1 + t / DAY.

(** [df.sort_values(by=key)]. Ties keep their order here; pandas' default
    sort does not promise it, and nothing below depends on it: the hourly
    maximum ignores the order, and [asfreq] raises on equal timestamps. *)
Fixpoint insert_by {A : Type} (key : A -> Z) (x : A) (l : list A) : list A :=
  match l with
  | [] => [x]
  | y :: l' => if key x <=? key y then x :: l else y :: insert_by key x l'
  end.

Definition sort_values {A : Type} (key : A -> Z) (df : list A) : list A :=
  fold_right (insert_by key) [] df.

(** [Index.min()] and [Index.max()] of a non-empty index. *)
Definition index_min (ax : list Timestamp) : Timestamp :=
  match ax with
  | [] => 0
  | t :: ax' => fold_right Z.min t ax'
  end.

Definition index_max (ax : list Timestamp) : Timestamp :=
  match ax with
  | [] => 0
  | t :: ax' => fold_right Z.max t ax'
  end.

Definition floor_h (t : Timestamp) : Timestamp := HOUR * (t / HOUR).

(** The bin labels of [resample("h")] (closed and labelled on the left):
    [date_range(first, last, freq="h")] without its last edge, where
    [first] is the minimum rolled back to the hour and [last] the maximum
    rolled forward to the next hour. An empty index has no bins. *)
Definition hour_bins (ax : list Timestamp) : list Timestamp :=
  match ax with
  | [] => []
  | _ =>
      let first := floor_h (index_min ax) in
      let last := floor_h (index_max ax) + HOUR in
      map (fun i => first + HOUR * i) (range 0 ((last - first) / HOUR))
  end.

(** [max] of a group of values, skipping missing ones; missing when the
    group has no value. *)
Definition nanmax (vs : list (option Z)) : option Z :=
  fold_right
    (fun v acc =>
       match v, acc with
       | Some a, Some b => Some (Z.max a b)
       | Some a, None => Some a
       | None, _ => acc
       end)
    None vs.

Definition in_bin (b : Timestamp) (r : Row) : bool :=
  (b <=? fst r) && (fst r <? b + HOUR).

(** [df.set_index("timestamp").resample("h").max().reset_index()]: one
    row per bin, holding the maximum of the counts of its hour, missing for
    an hour without a count. *)
Definition resample_max (df : DataFrame) : DataFrame :=
  map (fun b => (b, nanmax (map snd (filter (in_bin b) df))))
      (hour_bins (map fst df)).

(** [Index.is_unique] *)
Fixpoint is_unique (ax : list Timestamp) : bool :=
  match ax with
  | [] => true
  | t :: ax' => negb (existsb (Z.eqb t) ax') && is_unique ax'
  end.

(** The value a unique index holds at label [t]; missing when absent. *)
Definition loc (df : DataFrame) (t : Timestamp) : option Z :=
  match find (fun r => fst r =? t) df with
  | Some r => snd r
  | None => None
  end.

(** A value of the numpy column a reindex returns: a number or [NaN]. *)
Inductive np_value : Type :=
| np_num (z : Z)
| np_nan.

Definition np_of (v : option Z) : np_value :=
  match v with
  | Some z => np_num z
  | None => np_nan
  end.

(** [df.reindex(target)] on the timestamp index: the value at each label
    of [target], [NaN] at a label the index does not have. *)
Definition reindex (df : DataFrame) (target : list Timestamp)
  : result (list (Timestamp * np_value)) :=
  if is_unique (map fst df)
  then Ok (map (fun t => (t, np_of (loc df t))) target)
  else Raise ValueError.

(** [df.set_index("Timestamp").resample("h").asfreq().reset_index()]: a
    reindex to the bin labels. A frame with no row, as read from a file
    that holds the header only, has no datetime index, and [resample]
    raises. *)
Definition resample_asfreq (df : DataFrame)
  : result (list (Timestamp * np_value)) :=
  match df with
  | [] => Raise TypeError
  | _ => reindex df (hour_bins (map fst df))
  end.

(** [df[col].astype("Int64")]: a number becomes an integer of the
    nullable column, [NaN] becomes its missing value [<NA>]. *)
Definition astype_Int64 (df : list (Timestamp * np_value)) : DataFrame :=
  map (fun r => (fst r,
                 match snd r with
                 | np_num z => Some z
                 | np_nan => None
                 end)) df.

End Pandas.
Import Pandas.

(* ================================================================== *)
(** * The ingestor *)

(** A row of a remote daily file: the columns [ip], [timestamp] (epoch
    milliseconds, in the range [pd.to_datetime] converts) and
    [playerCount] ([None] when the count is missing, or when the file has
    no such column: the frame then has no count to report). *)
Record raw_row : Type := mk_raw {
  ip : string;
  timestamp : Z;
  playerCount : option Z
}.

(** What [requests.get] returns when it returns. *)
Record Response : Type := mk_response {
  status_code : Z;
  text : string
}.

Definition str (n : Z) : string := NilZero.string_of_int (Z.to_int n).

Definition base_url : string := "https://dl.minetrack.me/Java".

Definition export_start_date : date := ymd2ord 2020 8 1.

(** [get_most_recent_date], with [self.today_datetime] as [now]. *)
Definition get_most_recent_date (now : datetime) : date :=
  if hour now <? 1 then dt_date now - 2 else dt_date now - 1.

(** The date list of [get_all_historical_data]:
    [[start + timedelta(days=i) for i in range((end - start).days + 1)]] *)
Definition date_list_historical (start_date end_date : date) : list date :=
  map (fun i => start_date + i) (range 0 (end_date - start_date + 1)).

(** The date list of [get_most_recent_data]:
    [[latest + timedelta(days=i) for i in range(1, (end - latest).days + 1)]] *)
Definition date_list_most_recent (latest_date end_date : date) : list date :=
  map (fun i => latest_date + i) (range 1 (end_date - latest_date + 1)).

(** The block both modes end with: concatenate, sort by timestamp, put on
    the hourly grid with [asfreq], convert the counts to [Int64]. The list
    always starts with the baseline. *)
Definition merge_frames (historical_dfs : list DataFrame) : result DataFrame :=
  let df := sort_values fst (concat historical_dfs) in
  df <- resample_asfreq df ;;
  Ok (astype_Int64 df).

Section HypixelDataIngestor.

(** The network: the outcome of [requests.get(url)]. *)
Variable requests_get : string -> result Response.

(** [pd.read_csv(StringIO(text))] followed by the column accesses and the
    conversions of the [try] block of [get_data_for_date]: the rows of the
    file, or the exception one of them raises on a text that is not such a
    table (malformed text, no [ip] or [timestamp] column, a timestamp of
    the server that is not a number or that [pd.to_datetime] rejects). *)
Variable read_csv : string -> result (list raw_row).

Definition url_of (d : date) : string :=
  let '(year, month, day) := ord2ymd d in
  (base_url ++ "/" ++ str day ++ "-" ++ str month ++ "-" ++ str year
     ++ ".csv")%string.

(** The body of the [try] block of [get_data_for_date]. *)
Definition hourly_peaks (response : Response) (d : date)
  : result DataFrame :=
  df <- read_csv (text response) ;;
  let df := filter (fun r => String.eqb (ip r) "mc.hypixel.net") df in
  let df := map (fun r => (timestamp r, playerCount r)) df in
  let df := sort_values fst df in
  let df := resample_max df in
  let df := filter (fun r => dt_date_of (fst r) =? d) df in
  Ok df.

(** [get_data_for_date]: the request is made before the [try] block. *)
Definition get_data_for_date (d : date) : result (option DataFrame) :=
  response <- requests_get (url_of d) ;;
  Ok (try_except_None (hourly_peaks response d)).

(** The loop over [date_list] that appends every frame that is not
    [None] to [historical_dfs]. *)
Fixpoint fetch_dates (date_list : list date)
         (historical_dfs : list DataFrame) : result (list DataFrame) :=
  match date_list with
  | [] => Ok historical_dfs
  | d :: date_list' =>
      df <- get_data_for_date d ;;
      fetch_dates date_list'
        (match df with
         | Some df => historical_dfs ++ [df]
         | None => historical_dfs
         end)
  end.

(** [get_all_historical_data], with the legacy file's frame as input. *)
Definition get_all_historical_data (now : datetime) (legacy_df : DataFrame)
  : result DataFrame :=
  let end_date := get_most_recent_date now in
  let date_list := date_list_historical export_start_date end_date in
  historical_dfs <- fetch_dates date_list [legacy_df] ;;
  merge_frames historical_dfs.

(** [old_df["Timestamp"].max().date()]; the maximum of an empty column
    is [nan], which has no [date]. *)
Definition latest_date_of (old_df : DataFrame) : result date :=
  match old_df with
  | [] => Raise AttributeError
  | _ => Ok (dt_date_of (index_max (map fst old_df)))
  end.

(** [get_most_recent_data], with the output file's frame as input. *)
Definition get_most_recent_data (now : datetime) (old_df : DataFrame)
  : result DataFrame :=
  latest_date <- latest_date_of old_df ;;
  let end_date := get_most_recent_date now in
  let date_list := date_list_most_recent latest_date end_date in
  historical_dfs <- fetch_dates date_list [old_df] ;;
  merge_frames historical_dfs.

(** [__init__]: the check of the ingestion type. *)
Definition init (ingestion_type : string) : result string :=
  if existsb (String.eqb ingestion_type) ["historical"; "most_recent"]%string
  then Ok ingestion_type
  else Raise ValueError.

(** [__call__]: the frame that is written to the output file, with the
    frames of the two files the modes read as inputs. *)
Definition call (ingestion_type : string) (now : datetime)
           (legacy_df old_df : DataFrame) : result DataFrame :=
  if String.eqb ingestion_type "historical"
  then get_all_historical_data now legacy_df
  else get_most_recent_data now old_df.

End HypixelDataIngestor.

(* ================================================================== *)
(** * Vocabulary of the properties *)

(** The order [sort_values] sorts by. *)
Definition key_le {A : Type} (key : A -> Z) (a b : A) : Prop :=
  key a <= key b.

(** A timestamp on the hour. *)
Definition aligned (t : Timestamp) : Prop := t mod HOUR = 0.

(** The number of bins. *)
Definition bin_count (ax : list Timestamp) : Z :=
  (floor_h (index_max ax) + HOUR - floor_h (index_min ax)) / HOUR.

(** [v] is the peak of [samples] in the hour that starts at [t]: the
    greatest reported count of that hour, or missing when the hour has no
    reported count. *)
Definition hourly_peak (samples : DataFrame) (t : Timestamp) (v : option Z)
  : Prop :=
  match v with
  | Some m =>
      (exists s, In (s, Some m) samples /\ t <= s < t + HOUR) /\
      (forall s c, In (s, Some c) samples -> t <= s < t + HOUR -> c <= m)
  | None => forall s c, In (s, Some c) samples -> ~ (t <= s < t + HOUR)
  end.

(** A count that a float64 holds exactly. *)
Definition count_exact (v : option Z) : Prop :=
  match v with
  | Some c => Z.abs c <= 2 ^ 53
  | None => True
  end.

Definition counts_exact (df : DataFrame) : Prop :=
  Forall (fun r => count_exact (snd r)) df.

(** [counts_exact], decided. *)
Definition counts_exactb (df : DataFrame) : bool :=
  forallb (fun r => match snd r with
                    | Some c => Z.abs c <=? 2 ^ 53
                    | None => true
                    end) df.

(** [n] consecutive hours starting at [t]. *)
Fixpoint hours_from (t : Timestamp) (n : nat) : list Timestamp :=
  match n with
  | O => []
  | S n' => t :: hours_from (t + HOUR) n'
  end.

(** A merged series: one row per hour, on the hour, without gaps. *)
Definition MergedSeries (df : DataFrame) : Prop :=
  exists t0, aligned t0 /\ map fst df = hours_from t0 (length df).

(** The timestamps the merge receives. *)
Definition timestamps (historical_dfs : list DataFrame) : list Timestamp :=
  map fst (concat historical_dfs).

(** The merge as the specification words it: concatenate, sort by
    timestamp, re-bucket into hourly windows over the whole range, keep
    the maximum of a bucket that holds a sample and mark the others
    missing. *)
Definition merge_by_hourly_max (historical_dfs : list DataFrame) : DataFrame :=
  resample_max (sort_values fst (concat historical_dfs)).

(** The hourly grid over a frame, each hour holding the frame's value at
    that timestamp. *)
Definition grid_of (df : DataFrame) : DataFrame :=
  map (fun t => (t, loc df t)) (hour_bins (map fst df)).

(** [aligned], decided. *)
Definition alignedb (t : Timestamp) : bool := t mod HOUR =? 0.

(** [datetime(year, month, day, h, m)] as a timestamp. *)
Definition timestamp_of (year month day h m : Z) : Timestamp :=
  (ymd2ord year month day - ymd2ord 1970 1 1) * DAY + h * HOUR + m * 60000.


(** The samples a daily file reports for the server. *)
Definition target_samples (rows : list raw_row) : DataFrame :=
  map (fun r => (timestamp r, playerCount r))
      (filter (fun r => String.eqb (ip r) "mc.hypixel.net") rows).

(** A network on which every request fails with [e]. *)
Definition unreachable (e : exn) : string -> result Response :=
  fun _ => Raise e.

(** A network that serves one text with status 200, and a parser that
    reads one table, for closed examples. *)
Definition serve (body : string) : string -> result Response :=
  fun _ => Ok (mk_response 200 body).

Definition parsed (rows : list raw_row) : string -> result (list raw_row) :=
  fun _ => Ok rows.

(** The frames the loop of a run appends to the baseline: those of the
    dates whose fetch returned a frame, in the order of the dates. *)
Definition fetched_frames (requests_get : string -> result Response)
           (read_csv : string -> result (list raw_row))
           (date_list : list date) : list DataFrame :=
  flat_map (fun d => match get_data_for_date requests_get read_csv d with
                     | Ok (Some df) => [df]
                     | _ => []
                     end) date_list.

(** A network that raises [e] on the address [u] and serves an empty text
    on every other one. *)
Definition down_on (u : string) (e : exn) : string -> result Response :=
  fun url => if String.eqb url u then Raise e else Ok (mk_response 200 "").

(** How a run of the script ends: the usage line and exit status 1, an
    exception that nothing catches, or a frame written to the output
    file. *)
Inductive outcome : Type :=
| Usage
| Uncaught (e : exn)
| Written (df : DataFrame).

(** The [__main__] block, with [sys.argv] as [argv]. *)
Definition main (requests_get : string -> result Response)
           (read_csv : string -> result (list raw_row))
           (argv : list string) (now : datetime)
           (legacy_df old_df : DataFrame) : outcome :=
  if negb (length argv =? 2)%nat then Usage
  else
    let ingestion_type := nth 1 argv ""%string in
    match (t <- init ingestion_type ;;
           call requests_get read_csv t now legacy_df old_df) with
    | Ok df => Written df
    | Raise e => Uncaught e
    end.

(* ================================================================== *)
(** * The embedding on concrete inputs *)

Example ymd2ord_epoch : ymd2ord 1970 1 1 = 719163.
Proof. reflexivity. Qed.

Example ord2ymd_leap_day : ord2ymd (ymd2ord 2024 2 29) = (2024, 2, 29).
Proof. vm_compute. reflexivity. Qed.

Example ord2ymd_new_year : ord2ymd (ymd2ord 2020 12 31 + 1) = (2021, 1, 1).
Proof. vm_compute. reflexivity. Qed.

Example url_not_padded :
  url_of (ymd2ord 2024 3 5)
  = "https://dl.minetrack.me/Java/5-3-2024.csv"%string.
Proof. vm_compute. reflexivity. Qed.

(* ================================================================== *)
(** * Facts about [range] *)

Lemma range_nil (a b : Z) : b <= a -> range a b = [].
Proof.
  intros H. unfold range.
  replace (Z.to_nat (b - a)) with 0%nat by lia. reflexivity.
Qed.

Lemma range_cons (a b : Z) : a < b -> range a b = a :: range (a + 1) b.
Proof.
  intros H. unfold range.
  replace (Z.to_nat (b - a)) with (S (Z.to_nat (b - (a + 1)))) by lia.
  cbn [seq map]. f_equal; [lia|].
  rewrite <- seq_shift, map_map.
  apply map_ext. intros i. lia.
Qed.

Lemma range_length (a b : Z) : length (range a b) = Z.to_nat (b - a).
Proof. unfold range. now rewrite length_map, length_seq. Qed.

Lemma range_In (a b x : Z) : In x (range a b) <-> a <= x < b.
Proof.
  unfold range. rewrite in_map_iff. split.
  - intros (i & <- & Hi). apply in_seq in Hi. lia.
  - intros H. exists (Z.to_nat (x - a)). split; [lia|].
    apply in_seq. lia.
Qed.

Lemma range_nth (a b : Z) (k : nat) :
  (k < Z.to_nat (b - a))%nat -> nth k (range a b) 0 = a + Z.of_nat k.
Proof.
  revert a. induction k as [|k IH]; intros a H.
  - rewrite range_cons by lia. cbn. lia.
  - rewrite range_cons by lia. cbn [nth]. rewrite IH by lia. lia.
Qed.

Lemma range_sorted (a b : Z) : StronglySorted Z.lt (range a b).
Proof.
  remember (Z.to_nat (b - a)) as n eqn:Hn.
  revert a Hn. induction n as [|n IH]; intros a Hn.
  - rewrite range_nil by lia. constructor.
  - rewrite range_cons by lia. constructor.
    + apply IH. lia.
    + apply Forall_forall. intros x Hx. apply range_In in Hx. lia.
Qed.

Lemma StronglySorted_lt_NoDup (l : list Z) : StronglySorted Z.lt l -> NoDup l.
Proof.
  induction 1 as [|x l Hs IH Hall]; constructor; auto.
  intros Hin. rewrite Forall_forall in Hall. specialize (Hall x Hin). lia.
Qed.

Lemma StronglySorted_map_mono (f : Z -> Z) (l : list Z) :
  (forall x y, x < y -> f x < f y) ->
  StronglySorted Z.lt l -> StronglySorted Z.lt (map f l).
Proof.
  intros Hf. induction 1 as [|x l Hs IH Hall]; cbn; constructor; auto.
  rewrite Forall_forall in *. intros y Hy.
  apply in_map_iff in Hy. destruct Hy as (z & <- & Hz). auto.
Qed.

Lemma count_occ_NoDup_In (l : list Z) (x : Z) :
  NoDup l -> (count_occ Z.eq_dec l x = 1%nat <-> In x l).
Proof.
  intros Hnd. split.
  - intros H. apply (count_occ_In Z.eq_dec). lia.
  - intros H. apply (count_occ_In Z.eq_dec) in H.
    rewrite (NoDup_count_occ Z.eq_dec) in Hnd. specialize (Hnd x). lia.
Qed.

(* ================================================================== *)
(** * The date planner *)

Lemma date_list_historical_In (a b d : date) :
  In d (date_list_historical a b) <-> a <= d <= b.
Proof.
  unfold date_list_historical. rewrite in_map_iff. split.
  - intros (i & <- & Hi). apply range_In in Hi. lia.
  - intros H. exists (d - a). split; [lia|]. apply range_In. lia.
Qed.

Lemma date_list_historical_sorted (a b : date) :
  StronglySorted Z.lt (date_list_historical a b).
Proof.
  apply StronglySorted_map_mono; [intros; lia | apply range_sorted].
Qed.

Lemma date_list_most_recent_In (latest e d : date) :
  In d (date_list_most_recent latest e) <-> latest < d <= e.
Proof.
  unfold date_list_most_recent. rewrite in_map_iff. split.
  - intros (i & <- & Hi). apply range_In in Hi. lia.
  - intros H. exists (d - latest). split; [lia|]. apply range_In. lia.
Qed.

Lemma date_list_most_recent_sorted (latest e : date) :
  StronglySorted Z.lt (date_list_most_recent latest e).
Proof.
  apply StronglySorted_map_mono; [intros; lia | apply range_sorted].
Qed.

(** C4: the most recent available date is two days before today's date
    when the UTC hour is before 01:00 and one day before otherwise; at
    2024-03-05T00:30Z it is 2024-03-03 and at 2024-03-05T02:00Z it is
    2024-03-04; it is always a day that lies wholly before now. *)
Theorem most_recent_date_rule (now : datetime) (Hvalid : valid_time now) :
  (hour now < 1 -> get_most_recent_date now = dt_date now - 2) /\
  (1 <= hour now -> get_most_recent_date now = dt_date now - 1) /\
  get_most_recent_date (utc 2024 3 5 0 30) = ymd2ord 2024 3 3 /\
  get_most_recent_date (utc 2024 3 5 2 0) = ymd2ord 2024 3 4 /\
  get_most_recent_date now < dt_date now /\
  end_of_day (get_most_recent_date now) <= instant now.
Proof.
  destruct Hvalid as (Hh & Hm & Hs).
  unfold get_most_recent_date, end_of_day, instant.
  repeat split; try reflexivity.
  - intros H. apply Z.ltb_lt in H. now rewrite H.
  - intros H. apply Z.ltb_ge in H. now rewrite H.
  - destruct (hour now <? 1); lia.
  - destruct (hour now <? 1); lia.
Qed.

Lemma most_recent_date_rule_witness :
  valid_time (utc 2024 3 5 0 30) /\
  get_most_recent_date (utc 2024 3 5 0 30) < dt_date (utc 2024 3 5 0 30).
Proof.
  assert (Hv : valid_time (utc 2024 3 5 0 30))
    by (unfold valid_time; cbn; lia).
  split; [exact Hv|].
  exact (proj1 (proj2 (proj2 (proj2 (proj2
           (most_recent_date_rule (utc 2024 3 5 0 30) Hv)))))).
Defined.

(** C5: the planned date list for [a .. b] holds a date exactly once when
    it lies in [a .. b] and not at all otherwise; it is ascending, steps by
    one day from [a], and is empty exactly when [b < a]. *)
Theorem plan_dates_exact (a b : date) :
  (forall d, count_occ Z.eq_dec (date_list_historical a b) d = 1%nat
             <-> a <= d <= b) /\
  (forall d, ~ (a <= d <= b) ->
             count_occ Z.eq_dec (date_list_historical a b) d = 0%nat) /\
  StronglySorted Z.lt (date_list_historical a b) /\
  length (date_list_historical a b) = Z.to_nat (b - a + 1) /\
  (forall k, (k < length (date_list_historical a b))%nat ->
             nth k (date_list_historical a b) 0 = a + Z.of_nat k) /\
  (date_list_historical a b = [] <-> b < a).
Proof.
  pose proof (date_list_historical_sorted a b) as Hs.
  pose proof (StronglySorted_lt_NoDup _ Hs) as Hnd.
  assert (Hlen : length (date_list_historical a b) = Z.to_nat (b - a + 1)).
  { unfold date_list_historical. rewrite length_map, range_length.
    f_equal. lia. }
  split; [|split; [|split; [|split; [|split]]]].
  - intros d. rewrite count_occ_NoDup_In by assumption.
    apply date_list_historical_In.
  - intros d H. apply count_occ_not_In. now rewrite date_list_historical_In.
  - exact Hs.
  - exact Hlen.
  - intros k Hk. rewrite Hlen in Hk. unfold date_list_historical.
    rewrite (nth_indep _ 0 (a + 0))
      by (rewrite length_map, range_length; lia).
    rewrite (map_nth (fun i => a + i)), range_nth by lia. lia.
  - split; intros H.
    + rewrite H in Hlen. cbn in Hlen. lia.
    + apply length_zero_iff_nil. rewrite Hlen. lia.
Qed.

(* ================================================================== *)
(** * Sorting, minimum and maximum of an index *)

Lemma insert_by_perm {A : Type} (key : A -> Z) (x : A) (l : list A) :
  Permutation (insert_by key x l) (x :: l).
Proof.
  induction l as [|y l IH]; cbn.
  - reflexivity.
  - destruct (key x <=? key y).
    + reflexivity.
    + rewrite IH. apply perm_swap.
Qed.

Lemma sort_values_perm {A : Type} (key : A -> Z) (l : list A) :
  Permutation (sort_values key l) l.
Proof.
  induction l as [|x l IH]; cbn.
  - reflexivity.
  - fold (sort_values key l). rewrite insert_by_perm. now constructor.
Qed.

Lemma insert_by_sorted {A : Type} (key : A -> Z) (x : A) (l : list A) :
  StronglySorted (key_le key) l ->
  StronglySorted (key_le key) (insert_by key x l).
Proof.
  induction 1 as [|y l Hs IH Hall]; cbn.
  - repeat constructor.
  - destruct (key x <=? key y) eqn:E.
    + apply Z.leb_le in E. constructor; [now constructor|].
      constructor; [exact E|].
      rewrite Forall_forall in *. intros z Hz.
      specialize (Hall z Hz). unfold key_le in *. lia.
    + apply Z.leb_gt in E. constructor; [exact IH|].
      rewrite Forall_forall in *. intros z Hz.
      apply (Permutation_in _ (insert_by_perm key x l)) in Hz.
      destruct Hz as [<-|Hz]; [unfold key_le; lia | auto].
Qed.

Lemma sort_values_sorted {A : Type} (key : A -> Z) (l : list A) :
  StronglySorted (key_le key) (sort_values key l).
Proof.
  induction l as [|x l IH]; cbn.
  - constructor.
  - apply insert_by_sorted, IH.
Qed.

(** A frame whose keys already ascend strictly is left as it is. *)
Lemma sort_values_id {A : Type} (key : A -> Z) (l : list A) :
  StronglySorted Z.lt (map key l) -> sort_values key l = l.
Proof.
  induction l as [|x l IH]; cbn; intros H.
  - reflexivity.
  - inversion H as [|? ? Hs Hall]; subst.
    fold (sort_values key l). rewrite IH by assumption.
    destruct l as [|y l]; cbn; [reflexivity|].
    inversion Hall as [|? ? Hxy _]; subst.
    destruct (key x <=? key y) eqn:E; [reflexivity|].
    apply Z.leb_gt in E. lia.
Qed.

Lemma fold_min_spec (t : Z) (l : list Z) :
  In (fold_right Z.min t l) (t :: l) /\
  forall x, In x (t :: l) -> fold_right Z.min t l <= x.
Proof.
  induction l as [|y l [IHin IHle]]; cbn.
  - split; [now left | intros x [<-|[]]; lia].
  - split.
    + destruct (Z.min_spec y (fold_right Z.min t l)) as [[_ ->]|[_ ->]].
      * right. now left.
      * destruct IHin as [<-|Hin]; [now left | right; now right].
    + intros x [<-|[<-|Hx]].
      * specialize (IHle t (or_introl eq_refl)). lia.
      * lia.
      * specialize (IHle x (or_intror Hx)). lia.
Qed.

Lemma fold_max_spec (t : Z) (l : list Z) :
  In (fold_right Z.max t l) (t :: l) /\
  forall x, In x (t :: l) -> x <= fold_right Z.max t l.
Proof.
  induction l as [|y l [IHin IHle]]; cbn.
  - split; [now left | intros x [<-|[]]; lia].
  - split.
    + destruct (Z.max_spec y (fold_right Z.max t l)) as [[_ ->]|[_ ->]].
      * destruct IHin as [<-|Hin]; [now left | right; now right].
      * right. now left.
    + intros x [<-|[<-|Hx]].
      * specialize (IHle t (or_introl eq_refl)). lia.
      * lia.
      * specialize (IHle x (or_intror Hx)). lia.
Qed.

Lemma index_min_In (ax : list Timestamp) : ax <> [] -> In (index_min ax) ax.
Proof. destruct ax; [easy|]. intros _. apply fold_min_spec. Qed.

Lemma index_min_le (ax : list Timestamp) (x : Z) :
  In x ax -> index_min ax <= x.
Proof. destruct ax; [easy|]. apply fold_min_spec. Qed.

Lemma index_max_In (ax : list Timestamp) : ax <> [] -> In (index_max ax) ax.
Proof. destruct ax; [easy|]. intros _. apply fold_max_spec. Qed.

Lemma index_max_ge (ax : list Timestamp) (x : Z) :
  In x ax -> x <= index_max ax.
Proof. destruct ax; [easy|]. apply fold_max_spec. Qed.

Lemma index_min_unique (ax : list Timestamp) (m : Z) :
  In m ax -> (forall x, In x ax -> m <= x) -> index_min ax = m.
Proof.
  intros Hin Hle.
  assert (Hne : ax <> []) by (intros ->; destruct Hin).
  pose proof (index_min_In ax Hne) as H1.
  pose proof (index_min_le ax m Hin) as H2.
  specialize (Hle _ H1). lia.
Qed.

Lemma index_max_unique (ax : list Timestamp) (m : Z) :
  In m ax -> (forall x, In x ax -> x <= m) -> index_max ax = m.
Proof.
  intros Hin Hle.
  assert (Hne : ax <> []) by (intros ->; destruct Hin).
  pose proof (index_max_In ax Hne) as H1.
  pose proof (index_max_ge ax m Hin) as H2.
  specialize (Hle _ H1). lia.
Qed.

(** Two indexes that bound each other from below have the same minimum;
    likewise from above for the maximum. *)
Lemma index_min_cofinal (ax ay : list Timestamp) :
  ax <> [] -> ay <> [] ->
  (forall x, In x ax -> exists y, In y ay /\ y <= x) ->
  (forall y, In y ay -> exists x, In x ax /\ x <= y) ->
  index_min ax = index_min ay.
Proof.
  intros Hx Hy Hxy Hyx.
  destruct (Hxy _ (index_min_In ax Hx)) as (y & Hyin & Hyle).
  destruct (Hyx _ (index_min_In ay Hy)) as (x & Hxin & Hxle).
  pose proof (index_min_le ay y Hyin). pose proof (index_min_le ax x Hxin).
  lia.
Qed.

Lemma index_max_cofinal (ax ay : list Timestamp) :
  ax <> [] -> ay <> [] ->
  (forall x, In x ax -> exists y, In y ay /\ x <= y) ->
  (forall y, In y ay -> exists x, In x ax /\ y <= x) ->
  index_max ax = index_max ay.
Proof.
  intros Hx Hy Hxy Hyx.
  destruct (Hxy _ (index_max_In ax Hx)) as (y & Hyin & Hyle).
  destruct (Hyx _ (index_max_In ay Hy)) as (x & Hxin & Hxle).
  pose proof (index_max_ge ay y Hyin). pose proof (index_max_ge ax x Hxin).
  lia.
Qed.

Lemma hour_bins_ext (ax ay : list Timestamp) :
  (ax = [] <-> ay = []) ->
  index_min ax = index_min ay -> index_max ax = index_max ay ->
  hour_bins ax = hour_bins ay.
Proof.
  intros Hnil Hmin Hmax. unfold hour_bins.
  destruct ax as [|a ax], ay as [|b ay]; try reflexivity.
  - destruct Hnil as [H _]. now specialize (H eq_refl).
  - destruct Hnil as [_ H]. now specialize (H eq_refl).
  - now rewrite Hmin, Hmax.
Qed.

Lemma hour_bins_perm (ax ay : list Timestamp) :
  Permutation ax ay -> hour_bins ax = hour_bins ay.
Proof.
  intros HP.
  destruct ax as [|a ax].
  { apply Permutation_nil in HP. now subst. }
  destruct ay as [|b ay].
  { apply Permutation_sym, Permutation_nil in HP. discriminate. }
  apply hour_bins_ext.
  - split; discriminate.
  - apply index_min_cofinal; try discriminate; intros x Hx; exists x;
      (split; [|lia]);
      [apply (Permutation_in _ HP)
      |apply (Permutation_in _ (Permutation_sym HP))];
      exact Hx.
  - apply index_max_cofinal; try discriminate; intros x Hx; exists x;
      (split; [|lia]);
      [apply (Permutation_in _ HP)
      |apply (Permutation_in _ (Permutation_sym HP))];
      exact Hx.
Qed.

(* ================================================================== *)
(** * The hourly bins *)

Lemma HOUR_pos : 0 < HOUR.
Proof. reflexivity. Qed.

Lemma floor_h_bounds (t : Timestamp) : floor_h t <= t < floor_h t + HOUR.
Proof.
  unfold floor_h. pose proof HOUR_pos.
  pose proof (Z.mul_div_le t HOUR). pose proof (Z.mul_succ_div_gt t HOUR).
  lia.
Qed.

Lemma floor_h_aligned (t : Timestamp) : aligned (floor_h t).
Proof.
  unfold aligned, floor_h. rewrite Z.mul_comm. apply Z.mod_mul.
  discriminate.
Qed.

Lemma floor_h_of_aligned (t : Timestamp) : aligned t -> floor_h t = t.
Proof.
  unfold aligned, floor_h. intros H.
  pose proof (Z.div_mod t HOUR ltac:(discriminate)). lia.
Qed.

Lemma floor_h_shift (t k : Z) : floor_h (t + HOUR * k) = floor_h t + HOUR * k.
Proof.
  unfold floor_h. rewrite (Z.mul_comm HOUR k), Z.div_add by discriminate.
  lia.
Qed.

Lemma aligned_shift (t k : Z) : aligned t -> aligned (t + HOUR * k).
Proof.
  unfold aligned. intros H.
  rewrite (Z.mul_comm HOUR k), Z.mod_add by discriminate. exact H.
Qed.

Lemma floor_h_mono (s t : Timestamp) : s <= t -> floor_h s <= floor_h t.
Proof.
  intros H. unfold floor_h. pose proof HOUR_pos.
  apply Z.mul_le_mono_nonneg_l; [lia|].
  apply Z.div_le_mono; lia.
Qed.

(** Two aligned timestamps less than an hour apart are equal. *)
Lemma aligned_close (s t : Timestamp) :
  aligned s -> aligned t -> t <= s < t + HOUR -> s = t.
Proof.
  intros Hs Ht H.
  rewrite <- (floor_h_of_aligned s Hs), <- (floor_h_of_aligned t Ht).
  unfold floor_h. f_equal.
  apply floor_h_of_aligned in Hs, Ht. unfold floor_h in Hs, Ht.
  pose proof HOUR_pos. nia.
Qed.

Lemma bin_count_eq (ax : list Timestamp) :
  bin_count ax = index_max ax / HOUR - index_min ax / HOUR + 1.
Proof.
  unfold bin_count, floor_h.
  replace (HOUR * (index_max ax / HOUR) + HOUR - HOUR * (index_min ax / HOUR))
    with ((index_max ax / HOUR - index_min ax / HOUR + 1) * HOUR) by lia.
  apply Z.div_mul. discriminate.
Qed.

Lemma hour_bins_unfold (ax : list Timestamp) :
  ax <> [] ->
  hour_bins ax =
  map (fun i => floor_h (index_min ax) + HOUR * i) (range 0 (bin_count ax)).
Proof. destruct ax; [easy|]. reflexivity. Qed.

Lemma hour_bins_In (ax : list Timestamp) (t : Timestamp) :
  In t (hour_bins ax) <->
  ax <> [] /\ aligned t /\
  floor_h (index_min ax) <= t <= floor_h (index_max ax).
Proof.
  destruct ax as [|a ax].
  { cbn. split; [easy | intros ([] & _); reflexivity]. }
  rewrite hour_bins_unfold by discriminate.
  rewrite in_map_iff. setoid_rewrite range_In. rewrite bin_count_eq.
  set (lo := index_min (a :: ax)). set (hi := index_max (a :: ax)).
  pose proof HOUR_pos as HP.
  split.
  - intros (i & <- & Hi). split; [discriminate|]. split.
    + apply aligned_shift, floor_h_aligned.
    + unfold floor_h. nia.
  - intros (_ & Hal & Hlo & Hhi).
    exists (t / HOUR - lo / HOUR). split.
    + apply floor_h_of_aligned in Hal. unfold floor_h in *. lia.
    + apply floor_h_of_aligned in Hal. unfold floor_h in *. nia.
Qed.

Lemma hour_bins_sorted (ax : list Timestamp) :
  StronglySorted Z.lt (hour_bins ax).
Proof.
  destruct ax as [|a ax]; [constructor|].
  rewrite hour_bins_unfold by discriminate.
  apply StronglySorted_map_mono; [|apply range_sorted].
  intros x y Hxy. pose proof HOUR_pos. nia.
Qed.


Lemma hour_bins_nil_iff (ax : list Timestamp) : hour_bins ax = [] <-> ax = [].
Proof.
  split; [|now intros ->].
  destruct ax as [|a ax]; [easy|]. intros H. exfalso.
  assert (Hin : In (floor_h (index_min (a :: ax))) (hour_bins (a :: ax))).
  { apply hour_bins_In. split; [discriminate|].
    split; [apply floor_h_aligned|]. split; [lia|].
    apply floor_h_mono.
    apply index_min_le, index_max_In. discriminate. }
  rewrite H in Hin. destruct Hin.
Qed.

(** Every timestamp of the index falls in the bin labelled by its hour. *)
Lemma hour_bins_cover (ax : list Timestamp) (s : Timestamp) :
  In s ax -> In (floor_h s) (hour_bins ax).
Proof.
  intros Hs. apply hour_bins_In.
  split; [intros ->; destruct Hs|].
  split; [apply floor_h_aligned|].
  split; apply floor_h_mono; [now apply index_min_le | now apply index_max_ge].
Qed.

(* ================================================================== *)
(** * The hourly maximum *)

Lemma in_bin_spec (b : Timestamp) (r : Row) :
  in_bin b r = true <-> b <= fst r < b + HOUR.
Proof. unfold in_bin. rewrite andb_true_iff, Z.leb_le, Z.ltb_lt. tauto. Qed.

Lemma nanmax_cons (v : option Z) (vs : list (option Z)) :
  nanmax (v :: vs) =
  match v, nanmax vs with
  | Some a, Some b => Some (Z.max a b)
  | Some a, None => Some a
  | None, acc => acc
  end.
Proof. reflexivity. Qed.

Lemma nanmax_None (vs : list (option Z)) :
  nanmax vs = None -> forall c, ~ In (Some c) vs.
Proof.
  induction vs as [|v vs IH]; intros H c.
  - intros [].
  - rewrite nanmax_cons in H. destruct v as [a|].
    + destruct (nanmax vs); discriminate H.
    + intros [Hc|Hc]; [discriminate Hc | exact (IH H c Hc)].
Qed.

Lemma nanmax_Some (vs : list (option Z)) (m : Z) :
  nanmax vs = Some m ->
  In (Some m) vs /\ forall c, In (Some c) vs -> c <= m.
Proof.
  revert m. induction vs as [|v vs IH]; intros m H.
  - discriminate H.
  - rewrite nanmax_cons in H. destruct v as [a|].
    + destruct (nanmax vs) as [b|] eqn:E.
      * injection H as <-. destruct (IH b eq_refl) as [Hin Hle].
        split.
        -- destruct (Z.max_spec a b) as [[_ ->]|[_ ->]];
             [now right | now left].
        -- intros c [[= ->]|Hc]; [lia|]. specialize (Hle c Hc). lia.
      * injection H as <-. split; [now left|].
        intros c [[= ->]|Hc]; [lia|].
        exfalso. exact (nanmax_None vs E c Hc).
    + destruct (IH m H) as [Hin Hle]. split; [now right|].
      intros c [Hc|Hc]; [discriminate Hc | auto].
Qed.

Lemma in_bin_values (df : DataFrame) (b : Timestamp) (v : option Z) :
  In v (map snd (filter (in_bin b) df)) <->
  exists s, In (s, v) df /\ b <= s < b + HOUR.
Proof.
  rewrite in_map_iff. split.
  - intros ([s' v'] & <- & Hin). apply filter_In in Hin.
    destruct Hin as [Hin Hb]. apply in_bin_spec in Hb.
    exists s'. auto.
  - intros (s' & Hin & Hb). exists (s', v). split; [reflexivity|].
    apply filter_In. split; [exact Hin | now apply in_bin_spec].
Qed.

Lemma nanmax_hourly_peak (df : DataFrame) (b : Timestamp) :
  hourly_peak df b (nanmax (map snd (filter (in_bin b) df))).
Proof.
  destruct (nanmax _) as [m|] eqn:E; cbn.
  - apply nanmax_Some in E. destruct E as [Hin Hle]. split.
    + now apply (in_bin_values df b) in Hin.
    + intros s c Hs Hb. apply Hle. apply (in_bin_values df b). eauto.
  - intros s c Hs Hb. apply (nanmax_None _ E c).
    apply (in_bin_values df b). eauto.
Qed.

Lemma hourly_peak_unique (df : DataFrame) (t : Timestamp) (v w : option Z) :
  hourly_peak df t v -> hourly_peak df t w -> v = w.
Proof.
  destruct v as [m|], w as [n|]; cbn.
  - intros [(s & Hs & Hb) Hm] [(s' & Hs' & Hb') Hn].
    specialize (Hm _ _ Hs' Hb'). specialize (Hn _ _ Hs Hb).
    f_equal. lia.
  - intros [(s & Hs & Hb) _] Hn. now specialize (Hn _ _ Hs Hb).
  - intros Hm [(s & Hs & Hb) _]. now specialize (Hm _ _ Hs Hb).
  - reflexivity.
Qed.

Lemma hourly_peak_incl (df df' : DataFrame) (t : Timestamp) (v : option Z) :
  (forall r, In r df <-> In r df') ->
  hourly_peak df t v -> hourly_peak df' t v.
Proof.
  intros H. destruct v as [m|]; cbn.
  - intros [(s & Hs & Hb) Hm]. split.
    + exists s. split; [now apply H | exact Hb].
    + intros s' c Hs' Hb'. apply (Hm s' c); [now apply H | exact Hb'].
  - intros Hn s c Hs. apply (Hn s c). now apply H.
Qed.

(** The rows of the hourly-maximum frame: one per bin, holding the peak of
    its hour. *)
Lemma resample_max_In (df : DataFrame) (t : Timestamp) (v : option Z) :
  In (t, v) (resample_max df) <->
  In t (hour_bins (map fst df)) /\ hourly_peak df t v.
Proof.
  unfold resample_max. rewrite in_map_iff. split.
  - intros (b & [= <- <-] & Hb). split; [exact Hb|].
    apply nanmax_hourly_peak.
  - intros (Hb & Hp). exists t. split; [|exact Hb]. f_equal.
    eapply hourly_peak_unique; [apply nanmax_hourly_peak | exact Hp].
Qed.

Lemma resample_max_index (df : DataFrame) :
  map fst (resample_max df) = hour_bins (map fst df).
Proof.
  unfold resample_max. rewrite map_map. cbn. apply map_id.
Qed.

(* ================================================================== *)
(** * Unique indexes and label lookup *)

Lemma is_unique_NoDup (ax : list Timestamp) : is_unique ax = true <-> NoDup ax.
Proof.
  induction ax as [|t ax IH]; cbn.
  - split; [constructor | reflexivity].
  - rewrite andb_true_iff, negb_true_iff, IH, NoDup_cons_iff.
    assert (H : existsb (Z.eqb t) ax = false <-> ~ In t ax).
    { rewrite <- not_true_iff_false, existsb_exists.
      split; intros H.
      - intros Hin. apply H. exists t. split; [exact Hin | apply Z.eqb_refl].
      - intros (x & Hx & E). apply Z.eqb_eq in E. now subst. }
    now rewrite H.
Qed.

Lemma loc_Some (df : DataFrame) (t : Timestamp) (v : Z) :
  loc df t = Some v -> In (t, Some v) df.
Proof.
  unfold loc.
  destruct (find (fun r => fst r =? t) df) as [[s w]|] eqn:E; [|discriminate].
  apply find_some in E. destruct E as [Hin Heq]. cbn in *.
  apply Z.eqb_eq in Heq. subst s. intros ->. exact Hin.
Qed.

Lemma loc_of_In (df : DataFrame) (t : Timestamp) (v : option Z) :
  NoDup (map fst df) -> In (t, v) df -> loc df t = v.
Proof.
  unfold loc. induction df as [|[s w] df IH]; cbn; intros Hnd Hin.
  - destruct Hin.
  - apply NoDup_cons_iff in Hnd. destruct Hnd as [Hnotin Hnd].
    destruct (s =? t) eqn:E.
    + apply Z.eqb_eq in E. subst s. destruct Hin as [[= ->]|Hin].
      * reflexivity.
      * exfalso. apply Hnotin. apply in_map_iff. now exists (t, v).
    + apply Z.eqb_neq in E. destruct Hin as [[= -> ->]|Hin]; [easy|auto].
Qed.

Lemma loc_absent (df : DataFrame) (t : Timestamp) :
  ~ In t (map fst df) -> loc df t = None.
Proof.
  intros H. unfold loc.
  destruct (find (fun r => fst r =? t) df) as [[s w]|] eqn:E; [|reflexivity].
  apply find_some in E. destruct E as [Hin Heq]. cbn in Heq.
  apply Z.eqb_eq in Heq. subst s. exfalso. apply H.
  apply in_map_iff. now exists (t, w).
Qed.

Lemma loc_Some_iff (df : DataFrame) (t : Timestamp) (v : Z) :
  NoDup (map fst df) -> (loc df t = Some v <-> In (t, Some v) df).
Proof.
  intros Hnd. split; [apply loc_Some | now apply loc_of_In].
Qed.

Lemma option_Some_ext (o o' : option Z) :
  (forall v, o = Some v <-> o' = Some v) -> o = o'.
Proof.
  intros H. destruct o as [a|], o' as [b|]; try reflexivity.
  - symmetry. now apply H.
  - exfalso. destruct (H a) as [H1 _]. discriminate (H1 eq_refl).
  - exfalso. destruct (H b) as [_ H2]. discriminate (H2 eq_refl).
Qed.

(** Lookup in a unique index depends on the rows only, not on their order. *)
Lemma loc_same_rows (df df' : DataFrame) (t : Timestamp) :
  NoDup (map fst df) -> NoDup (map fst df') ->
  (forall v, In (t, Some v) df <-> In (t, Some v) df') ->
  loc df t = loc df' t.
Proof.
  intros Hnd Hnd' H. apply option_Some_ext. intros v.
  now rewrite !loc_Some_iff, H by assumption.
Qed.

(** With aligned, pairwise distinct timestamps an hour holds at most one
    sample, and its peak is that sample's value. *)
Lemma loc_hourly_peak (df : DataFrame) (t : Timestamp) :
  NoDup (map fst df) -> Forall aligned (map fst df) -> aligned t ->
  hourly_peak df t (loc df t).
Proof.
  intros Hnd Hal Ht.
  assert (Hkey : forall s c, In (s, c) df -> t <= s < t + HOUR -> s = t).
  { intros s c Hin Hb. apply aligned_close; auto.
    rewrite Forall_forall in Hal. apply Hal.
    apply in_map_iff. now exists (s, c). }
  destruct (loc df t) as [m|] eqn:E; cbn.
  - apply loc_Some in E. split.
    + exists t. split; [exact E|]. pose proof HOUR_pos. lia.
    + intros s c Hin Hb. pose proof (Hkey _ _ Hin Hb). subst s.
      apply (loc_of_In df t (Some c) Hnd) in Hin.
      apply (loc_of_In df t (Some m) Hnd) in E.
      assert (c = m) by congruence. lia.
  - intros s c Hin Hb. pose proof (Hkey _ _ Hin Hb). subst s.
    apply (loc_of_In df t (Some c) Hnd) in Hin. congruence.
Qed.

(* ================================================================== *)
(** * Hourly grids *)

Lemma hours_from_length (t : Timestamp) (n : nat) :
  length (hours_from t n) = n.
Proof. revert t. induction n; intros t; cbn; auto. Qed.

Lemma hours_from_In (t : Timestamp) (n : nat) (x : Timestamp) :
  In x (hours_from t n) <->
  exists k, 0 <= k < Z.of_nat n /\ x = t + HOUR * k.
Proof.
  revert t. induction n as [|n IH]; intros t; cbn [hours_from In].
  - split; [intros [] | intros (k & Hk & _); lia].
  - rewrite IH. split.
    + intros [<-|(k & Hk & ->)].
      * exists 0. lia.
      * exists (k + 1). lia.
    + intros (k & Hk & ->).
      destruct (Z.eq_dec k 0) as [->|Hne]; [left; lia|].
      right. exists (k - 1). lia.
Qed.

Lemma hours_from_sorted (t : Timestamp) (n : nat) :
  StronglySorted Z.lt (hours_from t n).
Proof.
  revert t. induction n as [|n IH]; intros t; cbn; constructor.
  - apply IH.
  - apply Forall_forall. intros x Hx. apply hours_from_In in Hx.
    destruct Hx as (k & Hk & ->). pose proof HOUR_pos. nia.
Qed.

Lemma hours_from_aligned (t : Timestamp) (n : nat) :
  aligned t -> Forall aligned (hours_from t n).
Proof.
  intros Ht. apply Forall_forall. intros x Hx. apply hours_from_In in Hx.
  destruct Hx as (k & _ & ->). now apply aligned_shift.
Qed.

Lemma map_range_hours_from (t a b : Z) :
  map (fun i => t + HOUR * i) (range a b)
  = hours_from (t + HOUR * a) (Z.to_nat (b - a)).
Proof.
  remember (Z.to_nat (b - a)) as n eqn:Hn.
  revert a Hn. induction n as [|n IH]; intros a Hn.
  - now rewrite range_nil by lia.
  - rewrite range_cons by lia. cbn [map hours_from].
    rewrite IH by lia.
    replace (t + HOUR * (a + 1)) with (t + HOUR * a + HOUR) by lia.
    reflexivity.
Qed.

Lemma hour_bins_hours_from (ax : list Timestamp) :
  ax <> [] ->
  hour_bins ax
  = hours_from (floor_h (index_min ax)) (Z.to_nat (bin_count ax)).
Proof.
  intros H. rewrite hour_bins_unfold, map_range_hours_from by assumption.
  f_equal; lia.
Qed.

Lemma hours_from_min (t : Timestamp) (n : nat) :
  index_min (hours_from t (S n)) = t.
Proof.
  apply index_min_unique; [now left|].
  intros x Hx. apply hours_from_In in Hx. destruct Hx as (k & Hk & ->).
  pose proof HOUR_pos. nia.
Qed.

Lemma hours_from_max (t : Timestamp) (n : nat) :
  index_max (hours_from t (S n)) = t + HOUR * Z.of_nat n.
Proof.
  apply index_max_unique.
  - apply hours_from_In. exists (Z.of_nat n). lia.
  - intros x Hx. apply hours_from_In in Hx. destruct Hx as (k & Hk & ->).
    pose proof HOUR_pos. nia.
Qed.

(** The bins of a run of [n] consecutive hours: the [n] hours that start
    at the first one rolled back to the hour. *)
Lemma hour_bins_of_hours_from (t : Timestamp) (n : nat) :
  hour_bins (hours_from t n) = hours_from (floor_h t) n.
Proof.
  destruct n as [|n]; [reflexivity|].
  rewrite hour_bins_hours_from by discriminate.
  rewrite bin_count_eq, hours_from_min, hours_from_max.
  f_equal.
  rewrite (Z.mul_comm HOUR), Z.div_add by discriminate. lia.
Qed.

Lemma hour_bins_of_grid (t : Timestamp) (n : nat) :
  aligned t -> hour_bins (hours_from t n) = hours_from t n.
Proof.
  intros H. now rewrite hour_bins_of_hours_from, floor_h_of_aligned.
Qed.

(** The bin labels always form a merged-series index. *)
Lemma hour_bins_grid (ax : list Timestamp) :
  exists t0, aligned t0 /\
             hour_bins ax = hours_from t0 (length (hour_bins ax)).
Proof.
  destruct ax as [|a ax].
  - exists 0. split; reflexivity.
  - exists (floor_h (index_min (a :: ax))). split; [apply floor_h_aligned|].
    rewrite hour_bins_hours_from at 1 by discriminate.
    rewrite hour_bins_hours_from, hours_from_length by discriminate.
    reflexivity.
Qed.

(* ================================================================== *)
(** * [asfreq] on the hourly bins *)

Lemma reindex_self (df : DataFrame) :
  NoDup (map fst df) -> map (fun t => (t, loc df t)) (map fst df) = df.
Proof.
  intros Hnd. rewrite map_map.
  rewrite <- (map_id df) at 2. apply map_ext_in.
  intros [t v] Hin. cbn. f_equal. now apply loc_of_In.
Qed.

(** On aligned, pairwise distinct timestamps the hourly maximum is the
    lookup of each bin label. *)
Lemma resample_max_loc (df : DataFrame) :
  NoDup (map fst df) -> Forall aligned (map fst df) ->
  resample_max df = map (fun t => (t, loc df t)) (hour_bins (map fst df)).
Proof.
  intros Hnd Hal. unfold resample_max. apply map_ext_in.
  intros b Hb. f_equal. apply hour_bins_In in Hb.
  destruct Hb as (_ & Hb & _).
  eapply hourly_peak_unique;
    [apply nanmax_hourly_peak | now apply loc_hourly_peak].
Qed.

(** The conversion to [Int64] gives back the looked-up values: a number
    stays that number, [NaN] becomes the missing value. *)
Lemma astype_Int64_np_of (f : Timestamp -> option Z) (l : list Timestamp) :
  astype_Int64 (map (fun t => (t, np_of (f t))) l)
  = map (fun t => (t, f t)) l.
Proof.
  unfold astype_Int64. rewrite map_map. apply map_ext.
  intros t. cbn. now destruct (f t).
Qed.

Lemma astype_Int64_In (col : list (Timestamp * np_value)) (t : Timestamp) :
  (forall z, In (t, np_num z) col <-> In (t, Some z) (astype_Int64 col)) /\
  (In (t, np_nan) col <-> In (t, None) (astype_Int64 col)).
Proof.
  unfold astype_Int64. split; [intros z|]; rewrite in_map_iff; split.
  - intros H. now exists (t, np_num z).
  - intros ([t' [z'|]] & E & H); cbn in E; [|discriminate E].
    now injection E as -> ->.
  - intros H. now exists (t, np_nan).
  - intros ([t' [z'|]] & E & H); cbn in E; [discriminate E|].
    now injection E as ->.
Qed.

Lemma resample_asfreq_duplicates (df : DataFrame) :
  ~ NoDup (map fst df) -> resample_asfreq df = Raise ValueError.
Proof.
  intros Hdup. unfold resample_asfreq, reindex.
  destruct df as [|r df]; [exfalso; apply Hdup; constructor|].
  destruct (is_unique (map fst (r :: df))) eqn:U; [|reflexivity].
  apply is_unique_NoDup in U. contradiction.
Qed.

Lemma resample_asfreq_unique (df : DataFrame) :
  df <> [] -> NoDup (map fst df) ->
  resample_asfreq df
  = Ok (map (fun t => (t, np_of (loc df t))) (hour_bins (map fst df))).
Proof.
  intros Hne Hnd. unfold resample_asfreq, reindex.
  destruct df as [|r df]; [contradiction|].
  apply is_unique_NoDup in Hnd. now rewrite Hnd.
Qed.

Lemma resample_asfreq_Ok (df : DataFrame)
      (col : list (Timestamp * np_value)) :
  resample_asfreq df = Ok col ->
  df <> [] /\ NoDup (map fst df) /\
  col = map (fun t => (t, np_of (loc df t))) (hour_bins (map fst df)).
Proof.
  unfold resample_asfreq, reindex.
  destruct df as [|r df]; [discriminate|].
  destruct (is_unique (map fst (r :: df))) eqn:U; [|discriminate].
  intros [= <-]. apply is_unique_NoDup in U.
  split; [discriminate|]. split; [exact U | reflexivity].
Qed.

(* ================================================================== *)
(** * The merge *)

Lemma sorted_keys_perm (df : DataFrame) :
  Permutation (map fst (sort_values fst df)) (map fst df).
Proof. apply Permutation_map, sort_values_perm. Qed.

Lemma sorted_rows_iff (df : DataFrame) (r : Row) :
  In r (sort_values fst df) <-> In r df.
Proof.
  split; apply Permutation_in;
    [apply sort_values_perm | apply Permutation_sym, sort_values_perm].
Qed.

Lemma sorted_nil (df : DataFrame) : sort_values fst df = [] -> df = [].
Proof.
  intros H. pose proof (sort_values_perm fst df) as HP.
  rewrite H in HP. now apply Permutation_nil in HP.
Qed.

Lemma Forall_perm {A : Type} (P : A -> Prop) (l l' : list A) :
  Permutation l l' -> Forall P l -> Forall P l'.
Proof.
  intros HP H. rewrite Forall_forall in *. intros x Hx.
  apply H. apply (Permutation_in _ (Permutation_sym HP)). exact Hx.
Qed.

Lemma grid_of_index (df : DataFrame) :
  map fst (grid_of df) = hour_bins (map fst df).
Proof. unfold grid_of. rewrite map_map. cbn. apply map_id. Qed.

Lemma grid_of_In (df : DataFrame) (t : Timestamp) (v : option Z) :
  In (t, v) (grid_of df) <-> In t (hour_bins (map fst df)) /\ v = loc df t.
Proof.
  unfold grid_of. rewrite in_map_iff. split.
  - intros (b & [= <- <-] & Hb). auto.
  - intros (Hb & ->). now exists t.
Qed.

(** The grid over a frame with distinct timestamps does not depend on the
    order of its rows. *)
Lemma grid_of_sort (df : DataFrame) :
  NoDup (map fst df) -> grid_of (sort_values fst df) = grid_of df.
Proof.
  intros Hnd.
  pose proof (sorted_keys_perm df) as HP.
  assert (Hnd' : NoDup (map fst (sort_values fst df)))
    by (apply (Permutation_NoDup (Permutation_sym HP)); exact Hnd).
  unfold grid_of.
  transitivity (map (fun t => (t, loc (sort_values fst df) t))
                    (hour_bins (map fst df))).
  - f_equal. apply hour_bins_perm. exact HP.
  - apply map_ext. intros t. f_equal.
    apply loc_same_rows; auto. intros v. apply sorted_rows_iff.
Qed.

Lemma grid_of_sorted (df : DataFrame) :
  NoDup (map fst df) -> Forall aligned (map fst df) ->
  resample_max (sort_values fst df) = grid_of df.
Proof.
  intros Hnd Hal.
  pose proof (sorted_keys_perm df) as HP.
  assert (Hnd' : NoDup (map fst (sort_values fst df)))
    by (apply (Permutation_NoDup (Permutation_sym HP)); exact Hnd).
  assert (Hal' : Forall aligned (map fst (sort_values fst df)))
    by (apply (Forall_perm _ _ _ (Permutation_sym HP)); exact Hal).
  rewrite resample_max_loc by assumption.
  now apply grid_of_sort.
Qed.

Lemma keys_nil (df : DataFrame) : map fst df = [] -> df = [].
Proof. destruct df; [reflexivity | discriminate]. Qed.

(** What the merge returns, and when: the grid over the concatenated
    rows, when there is a row and no timestamp comes twice. *)
Lemma merge_frames_grid (dfs : list DataFrame) :
  timestamps dfs <> [] -> NoDup (timestamps dfs) ->
  merge_frames dfs = Ok (grid_of (concat dfs)).
Proof.
  unfold timestamps, merge_frames. intros Hne Hnd.
  pose proof (sorted_keys_perm (concat dfs)) as HP.
  rewrite resample_asfreq_unique.
  - cbn [bind]. rewrite (astype_Int64_np_of (loc _)).
    f_equal. now apply grid_of_sort.
  - intros E. apply sorted_nil in E. rewrite E in Hne. now apply Hne.
  - apply (Permutation_NoDup (Permutation_sym HP)); exact Hnd.
Qed.

Lemma merge_frames_Ok (dfs : list DataFrame) (out : DataFrame) :
  merge_frames dfs = Ok out ->
  timestamps dfs <> [] /\ NoDup (timestamps dfs) /\
  out = grid_of (concat dfs).
Proof.
  intros H.
  assert (Hcol : exists col,
             resample_asfreq (sort_values fst (concat dfs)) = Ok col).
  { unfold merge_frames in H.
    destruct (resample_asfreq _) as [col|e]; [eauto | discriminate H]. }
  destruct Hcol as (col & Hcol). apply resample_asfreq_Ok in Hcol.
  destruct Hcol as (Hne & Hnd & _).
  assert (Hne' : timestamps dfs <> []).
  { unfold timestamps. intros E. apply keys_nil in E.
    apply Hne. now rewrite E. }
  assert (Hnd' : NoDup (timestamps dfs))
    by (apply (Permutation_NoDup (sorted_keys_perm (concat dfs))); exact Hnd).
  split; [exact Hne'|]. split; [exact Hnd'|].
  rewrite (merge_frames_grid dfs Hne' Hnd') in H. congruence.
Qed.

(** On aligned, pairwise distinct timestamps the merge returns the hourly
    maximum. *)
Lemma merge_frames_distinct (dfs : list DataFrame) :
  timestamps dfs <> [] ->
  NoDup (timestamps dfs) -> Forall aligned (timestamps dfs) ->
  merge_frames dfs = Ok (merge_by_hourly_max dfs).
Proof.
  intros Hne Hnd Hal. rewrite merge_frames_grid by assumption.
  unfold merge_by_hourly_max. now rewrite grid_of_sorted.
Qed.

(** Two samples with the same timestamp make the merge raise. *)
Lemma merge_frames_duplicates (dfs : list DataFrame) :
  ~ NoDup (timestamps dfs) -> merge_frames dfs = Raise ValueError.
Proof.
  unfold timestamps, merge_frames. intros Hdup.
  rewrite resample_asfreq_duplicates; [reflexivity|].
  intros Hnd. apply Hdup.
  apply (Permutation_NoDup (sorted_keys_perm (concat dfs))). exact Hnd.
Qed.

(** Frames without a row make the merge raise. *)
Lemma merge_frames_empty (dfs : list DataFrame) :
  timestamps dfs = [] -> merge_frames dfs = Raise TypeError.
Proof.
  unfold timestamps, merge_frames. intros H. apply keys_nil in H.
  now rewrite H.
Qed.

Lemma MergedSeries_keys (df : DataFrame) :
  MergedSeries df ->
  NoDup (map fst df) /\ Forall aligned (map fst df) /\
  StronglySorted Z.lt (map fst df) /\
  hour_bins (map fst df) = map fst df.
Proof.
  intros (t0 & Ht0 & E). rewrite E.
  split; [apply StronglySorted_lt_NoDup, hours_from_sorted|].
  split; [now apply hours_from_aligned|].
  split; [apply hours_from_sorted | now apply hour_bins_of_grid].
Qed.

(** Merging a merged series alone gives it back. *)
Lemma merge_frames_identity (df : DataFrame) :
  df <> [] -> MergedSeries df -> merge_frames [df] = Ok df.
Proof.
  intros Hne H. apply MergedSeries_keys in H.
  destruct H as (Hnd & Hal & _ & Hbins).
  rewrite merge_frames_grid; unfold timestamps; cbn [concat];
    rewrite ?app_nil_r; auto.
  - unfold grid_of. rewrite Hbins. now rewrite reindex_self.
  - intros E. apply keys_nil in E. contradiction.
Qed.

Lemma all_aligned_dec (ax : list Timestamp) :
  forallb alignedb ax = true -> Forall aligned ax.
Proof.
  rewrite forallb_forall, Forall_forall. intros H t Ht.
  apply Z.eqb_eq. exact (H t Ht).
Qed.

Lemma all_distinct_dec (ax : list Timestamp) :
  is_unique ax = true -> NoDup ax.
Proof. apply is_unique_NoDup. Qed.

Lemma all_exact_dec (df : DataFrame) :
  counts_exactb df = true -> counts_exact df.
Proof.
  unfold counts_exactb, counts_exact.
  rewrite forallb_forall, Forall_forall. intros H r Hr.
  specialize (H r Hr). destruct (snd r); cbn; [|exact I].
  now apply Z.leb_le.
Qed.

(** A baseline with a row gives the merge a row. *)
Lemma baseline_rows (dfs : list DataFrame) :
  hd [] dfs <> [] -> timestamps dfs <> [].
Proof.
  destruct dfs as [|[|r df] dfs]; cbn; intros H; try contradiction.
  unfold timestamps. cbn. discriminate.
Qed.

(** C1 (amended): when the baseline has a row, the concatenated samples
    are on the hour, no two of them share a timestamp and their counts are
    exact in float64, the merge returns the hourly re-bucketing of the
    sorted samples over the whole range from the minimum to the maximum:
    each bucket holds the peak of its hour, which is missing when the hour
    has no reported count. *)
Theorem merge_keeps_hourly_max_of_distinct_hours
        (dfs : list DataFrame)
        (Hbaseline : hd [] dfs <> [])
        (Hdistinct : NoDup (timestamps dfs))
        (Haligned : Forall aligned (timestamps dfs))
        (Hexact : counts_exact (concat dfs)) :
  merge_frames dfs = Ok (merge_by_hourly_max dfs) /\
  map fst (merge_by_hourly_max dfs) = hour_bins (timestamps dfs) /\
  (forall t v, In (t, v) (merge_by_hourly_max dfs) ->
               hourly_peak (concat dfs) t v).
Proof.
  split; [apply merge_frames_distinct; auto; now apply baseline_rows|].
  split.
  - unfold merge_by_hourly_max, timestamps. rewrite resample_max_index.
    apply hour_bins_perm, sorted_keys_perm.
  - intros t v Hin. unfold merge_by_hourly_max in Hin.
    apply resample_max_In in Hin. destruct Hin as [_ Hp].
    eapply hourly_peak_incl; [|exact Hp].
    intros r. apply sorted_rows_iff.
Qed.

Lemma merge_keeps_hourly_max_of_distinct_hours_witness :
  merge_frames [[(timestamp_of 2024 3 5 0 0, Some 10)];
                [(timestamp_of 2024 3 5 1 0, Some 15)]]
  = Ok [(timestamp_of 2024 3 5 0 0, Some 10);
        (timestamp_of 2024 3 5 1 0, Some 15)].
Proof.
  refine (eq_trans
    (proj1 (merge_keeps_hourly_max_of_distinct_hours
       [[(timestamp_of 2024 3 5 0 0, Some 10)];
        [(timestamp_of 2024 3 5 1 0, Some 15)]] _ _ _ _)) _).
  - discriminate.
  - apply all_distinct_dec. vm_compute. reflexivity.
  - apply all_aligned_dec. vm_compute. reflexivity.
  - apply all_exact_dec. vm_compute. reflexivity.
  - vm_compute. reflexivity.
Defined.

(** C1 as stated fails: two samples of one hour with counts 10 and 15
    should give one bucket with 15; the merge raises when they share the
    timestamp, and here keeps only the sample on the hour when they do
    not. *)
Lemma merge_does_not_keep_maximum :
  merge_by_hourly_max [[(timestamp_of 2024 3 5 0 0, Some 10)];
                       [(timestamp_of 2024 3 5 0 0, Some 15)]]
  = [(timestamp_of 2024 3 5 0 0, Some 15)] /\
  merge_frames [[(timestamp_of 2024 3 5 0 0, Some 10)];
                [(timestamp_of 2024 3 5 0 0, Some 15)]]
  = Raise ValueError /\
  merge_frames [[(timestamp_of 2024 3 5 0 0, Some 10);
                 (timestamp_of 2024 3 5 0 30, Some 15)]]
  = Ok [(timestamp_of 2024 3 5 0 0, Some 10)].
Proof. vm_compute. repeat split; reflexivity. Qed.

(** C7: a merged series the run produces is a gap-free hourly grid: its
    timestamps are the hours from the hour of the earliest sample to the
    hour of the latest one, on the hour, ascending, one hour apart; an hour
    in which the sources have no sample is present and missing; the
    conversion to [Int64] turns the numbers of the reindexed column into
    integers and its [NaN] into the missing value, never into a number;
    and, for counts that are exact in float64, every count in the result
    was reported in its hour. Samples at 00:00 and 03:00 give four rows,
    01:00 and 02:00 missing. *)
Theorem merged_series_is_hourly_grid
        (dfs : list DataFrame) (out : DataFrame)
        (Hrun : merge_frames dfs = Ok out) :
  MergedSeries out /\
  map fst out = hour_bins (timestamps dfs) /\
  StronglySorted Z.lt (map fst out) /\
  (forall t, In t (map fst out) <->
             timestamps dfs <> [] /\ aligned t /\
             floor_h (index_min (timestamps dfs)) <= t
               <= floor_h (index_max (timestamps dfs))) /\
  (forall t v, In (t, v) out ->
               (forall s c, In (s, c) (concat dfs) -> ~ (t <= s < t + HOUR)) ->
               v = None) /\
  (exists col,
      resample_asfreq (sort_values fst (concat dfs)) = Ok col /\
      out = astype_Int64 col /\
      forall t,
        (forall z, In (t, np_num z) col <-> In (t, Some z) out) /\
        (In (t, np_nan) col <-> In (t, None) out)) /\
  (counts_exact (concat dfs) ->
   forall t m, In (t, Some m) out ->
               exists s, In (s, Some m) (concat dfs) /\ t <= s < t + HOUR) /\
  merge_frames [[(timestamp_of 2024 3 5 0 0, Some 5);
                 (timestamp_of 2024 3 5 3 0, Some 7)]]
  = Ok [(timestamp_of 2024 3 5 0 0, Some 5);
        (timestamp_of 2024 3 5 1 0, None);
        (timestamp_of 2024 3 5 2 0, None);
        (timestamp_of 2024 3 5 3 0, Some 7)].
Proof.
  assert (Hcol : exists col,
             resample_asfreq (sort_values fst (concat dfs)) = Ok col /\
             out = astype_Int64 col).
  { unfold merge_frames in Hrun.
    destruct (resample_asfreq _) as [col|e]; [|discriminate Hrun].
    exists col. split; [reflexivity|]. cbn in Hrun. congruence. }
  destruct (merge_frames_Ok _ _ Hrun) as (Hne & Hnd & Hout).
  assert (Hidx : map fst out = hour_bins (timestamps dfs))
    by (rewrite Hout; apply grid_of_index).
  assert (Hval : forall t m, In (t, Some m) out ->
            exists s, In (s, Some m) (concat dfs) /\ t <= s < t + HOUR).
  { intros t m Hin. rewrite Hout in Hin. apply grid_of_In in Hin.
    destruct Hin as [_ Hloc]. symmetry in Hloc. apply loc_Some in Hloc.
    exists t. split; [exact Hloc|]. pose proof HOUR_pos. lia. }
  split; [|split; [|split; [|split; [|split; [|split; [|split]]]]]].
  - destruct (hour_bins_grid (timestamps dfs)) as (t0 & Ht0 & E).
    exists t0. split; [exact Ht0|].
    etransitivity; [exact Hidx|]. etransitivity; [exact E|].
    f_equal. rewrite <- Hidx. apply length_map.
  - exact Hidx.
  - rewrite Hidx. apply hour_bins_sorted.
  - intros t. rewrite Hidx. apply hour_bins_In.
  - intros t [m|] Hin Hnone; [|reflexivity].
    destruct (Hval t m Hin) as (s & Hs & Hb).
    exfalso. exact (Hnone s (Some m) Hs Hb).
  - destruct Hcol as (col & Hc & E). exists col.
    split; [exact Hc|]. split; [exact E|].
    intros t. rewrite E. apply astype_Int64_In.
  - intros _. exact Hval.
  - vm_compute. reflexivity.
Qed.

Lemma merged_series_is_hourly_grid_witness :
  MergedSeries [(timestamp_of 2024 3 5 0 0, Some 5);
                (timestamp_of 2024 3 5 1 0, None);
                (timestamp_of 2024 3 5 2 0, None);
                (timestamp_of 2024 3 5 3 0, Some 7)].
Proof.
  refine (proj1 (merged_series_is_hourly_grid
    [[(timestamp_of 2024 3 5 0 0, Some 5);
      (timestamp_of 2024 3 5 3 0, Some 7)]] _ _)).
  vm_compute. reflexivity.
Defined.

(* ================================================================== *)
(** * Merging in two runs *)

Lemma timestamps_cons (df : DataFrame) (dfs : list DataFrame) :
  timestamps (df :: dfs) = map fst df ++ timestamps dfs.
Proof. unfold timestamps. cbn [concat]. apply map_app. Qed.

Lemma timestamps_app (dfs dfs' : list DataFrame) :
  timestamps (dfs ++ dfs') = timestamps dfs ++ timestamps dfs'.
Proof. unfold timestamps. now rewrite concat_app, map_app. Qed.

Lemma In_keys (df : DataFrame) (t : Timestamp) (v : option Z) :
  In (t, v) df -> In t (map fst df).
Proof. intros H. apply in_map_iff. now exists (t, v). Qed.









(* ================================================================== *)
(** * The per-date fetch *)

Lemma no_target_samples (rows : list raw_row) :
  (forall r, In r rows -> ip r <> "mc.hypixel.net"%string) ->
  target_samples rows = [].
Proof.
  unfold target_samples. induction rows as [|r rows IH]; intros H.
  - reflexivity.
  - cbn. destruct (String.eqb (ip r) "mc.hypixel.net") eqn:E.
    + apply String.eqb_eq in E. exfalso.
      exact (H r (or_introl eq_refl) E).
    + apply IH. intros r' Hr'. apply H. now right.
Qed.

(** The index of the hourly maximum after a filter on the labels. *)
Lemma resample_max_filter_index (f : Timestamp -> bool) (df : DataFrame) :
  map fst (filter (fun r => f (fst r)) (resample_max df))
  = filter f (hour_bins (map fst df)).
Proof.
  unfold resample_max.
  induction (hour_bins (map fst df)) as [|b bins IH]; [reflexivity|].
  cbn. destruct (f b); cbn; now rewrite IH.
Qed.

Section Fetch.

Variable requests_get : string -> result Response.
Variable read_csv : string -> result (list raw_row).

(** What a successful fetch returns. *)
Lemma fetch_Some (d : date) (df : DataFrame) :
  get_data_for_date requests_get read_csv d = Ok (Some df) ->
  exists response rows,
    requests_get (url_of d) = Ok response /\
    read_csv (text response) = Ok rows /\
    df = filter (fun r => dt_date_of (fst r) =? d)
                (resample_max (sort_values fst (target_samples rows))).
Proof.
  unfold get_data_for_date, hourly_peaks, target_samples.
  destruct (requests_get (url_of d)) as [response|e] eqn:Hget; cbn;
    [|discriminate].
  destruct (read_csv (text response)) as [rows|e] eqn:Hread; cbn;
    [|discriminate].
  intros [= <-]. exists response, rows. auto.
Qed.

(** Once the request has returned, the fetch does not raise. *)
Lemma fetch_after_response (d : date) (response : Response) :
  requests_get (url_of d) = Ok response ->
  exists o, get_data_for_date requests_get read_csv d = Ok o.
Proof. unfold get_data_for_date. intros ->. cbn. eauto. Qed.

(** A text that does not parse gives [None]. *)
Lemma fetch_parse_failure (d : date) (response : Response) (e : exn) :
  requests_get (url_of d) = Ok response ->
  read_csv (text response) = Raise e ->
  get_data_for_date requests_get read_csv d = Ok None.
Proof.
  unfold get_data_for_date, hourly_peaks. intros -> H. cbn.
  now rewrite H.
Qed.

(** C6: every sample of the series a successful fetch returns for the
    date [d] has a timestamp whose date is [d]; an hourly bucket of
    another date is not in the result. *)
Theorem fetched_samples_on_requested_date
        (d : date) (df : DataFrame)
        (Hfetch : get_data_for_date requests_get read_csv d = Ok (Some df)) :
  (forall r, In r df -> dt_date_of (fst r) = d) /\
  (forall t v, dt_date_of t <> d -> ~ In (t, v) df).
Proof.
  destruct (fetch_Some d df Hfetch) as (response & rows & _ & _ & ->).
  assert (H : forall r,
             In r (filter (fun r => dt_date_of (fst r) =? d)
                    (resample_max (sort_values fst (target_samples rows)))) ->
             dt_date_of (fst r) = d).
  { intros r Hr. apply filter_In in Hr. destruct Hr as [_ Hr].
    now apply Z.eqb_eq. }
  split; [exact H|].
  intros t v Hne Hin. apply Hne. exact (H (t, v) Hin).
Qed.

(** C9 (amended): the series a successful fetch returns holds one row
    for every hour, from the hour of the earliest to the hour of the
    latest sample the file reports for the server, that falls on the
    requested date; hours outside the span are absent; for counts that
    are exact in float64, a row holds the peak of its hour, so an hour of
    that span without a reported count is present and missing. *)
Theorem fetched_series_spans_reported_hours
        (d : date) (df : DataFrame)
        (Hfetch : get_data_for_date requests_get read_csv d = Ok (Some df)) :
  exists response rows,
    requests_get (url_of d) = Ok response /\
    read_csv (text response) = Ok rows /\
    map fst df = filter (fun t => dt_date_of t =? d)
                        (hour_bins (map fst (target_samples rows))) /\
    (counts_exact (target_samples rows) ->
     forall t v,
       In (t, v) df <->
       (target_samples rows <> [] /\ aligned t /\
        floor_h (index_min (map fst (target_samples rows))) <= t
          <= floor_h (index_max (map fst (target_samples rows)))) /\
       dt_date_of t = d /\
       hourly_peak (target_samples rows) t v).
Proof.
  destruct (fetch_Some d df Hfetch) as (response & rows & Hget & Hread & ->).
  exists response, rows. split; [exact Hget|]. split; [exact Hread|].
  set (S := target_samples rows).
  assert (Hbins : hour_bins (map fst (sort_values fst S))
                  = hour_bins (map fst S))
    by apply hour_bins_perm, sorted_keys_perm.
  split.
  { etransitivity;
      [exact (resample_max_filter_index (fun t => dt_date_of t =? d)
                (sort_values fst S))|].
    f_equal. exact Hbins. }
  intros _ t v.
  assert (Hne : map fst S <> [] <-> S <> []).
  { destruct S; cbn; split; intros H; congruence. }
  assert (Hp : hourly_peak (sort_values fst S) t v <-> hourly_peak S t v)
    by (split; apply hourly_peak_incl; intros r;
        [|symmetry]; apply sorted_rows_iff).
  split.
  - intros Hin. apply filter_In in Hin. destruct Hin as [Hin Hd].
    cbn [fst] in Hd. apply Z.eqb_eq in Hd.
    apply resample_max_In in Hin. destruct Hin as [Hb Hpk].
    assert (Hb' : In t (hour_bins (map fst S)))
      by (rewrite <- Hbins; exact Hb).
    apply hour_bins_In in Hb'. tauto.
  - intros ((Hs & Hal & Hspan) & Hd & Hpk).
    apply filter_In. split; [|cbn [fst]; now apply Z.eqb_eq].
    apply resample_max_In. split; [|tauto].
    assert (Hb' : In t (hour_bins (map fst S)))
      by (apply hour_bins_In; tauto).
    rewrite <- Hbins in Hb'. exact Hb'.
Qed.

(** C10: when the file is retrieved and parsed and has no row for
    "mc.hypixel.net", the fetch returns an empty series, not [None]; the
    loop appends it, and it adds nothing to the merge. *)
Theorem fetch_without_server_rows
        (d : date) (response : Response) (rows : list raw_row)
        (Hget : requests_get (url_of d) = Ok response)
        (Hread : read_csv (text response) = Ok rows)
        (Hnone : forall r, In r rows -> ip r <> "mc.hypixel.net"%string) :
  get_data_for_date requests_get read_csv d = Ok (Some []) /\
  (forall dfs, fetch_dates requests_get read_csv [d] dfs
               = Ok (dfs ++ [[]])) /\
  (forall dfs, merge_frames (dfs ++ [[]]) = merge_frames dfs).
Proof.
  assert (Hfetch :
            get_data_for_date requests_get read_csv d = Ok (Some [])).
  { unfold get_data_for_date, hourly_peaks. rewrite Hget. cbn.
    rewrite Hread. cbn.
    change (map (fun r => (timestamp r, playerCount r))
                (filter (fun r => String.eqb (ip r) "mc.hypixel.net") rows))
      with (target_samples rows).
    now rewrite (no_target_samples rows Hnone). }
  split; [exact Hfetch|]. split.
  - intros dfs. cbn [fetch_dates]. rewrite Hfetch. reflexivity.
  - intros dfs. unfold merge_frames.
    now rewrite concat_app, app_nil_r.
Qed.

End Fetch.

(** C2 (the defect): the request is made outside the [try] block, so a
    connection error or a timeout of [requests.get] leaves
    [get_data_for_date] as an exception instead of giving [None]. *)
Theorem transport_error_escapes_fetch :
  forall (e : exn) (read_csv : string -> result (list raw_row)) (d : date),
    get_data_for_date (unreachable e) read_csv d = Raise e.
Proof. reflexivity. Qed.

Lemma fetched_samples_on_requested_date_witness :
  get_data_for_date
    (serve "")
    (parsed [mk_raw "mc.hypixel.net" (timestamp_of 2024 3 5 23 30) (Some 10);
             mk_raw "mc.hypixel.net" (timestamp_of 2024 3 6 0 10) (Some 20)])
    (ymd2ord 2024 3 5)
  = Ok (Some [(timestamp_of 2024 3 5 23 0, Some 10)]) /\
  dt_date_of (fst (timestamp_of 2024 3 5 23 0, Some 10)) = ymd2ord 2024 3 5 /\
  ~ In (timestamp_of 2024 3 6 0 0, Some 20)
       [(timestamp_of 2024 3 5 23 0, Some 10)].
Proof.
  assert (Hfetch :
    get_data_for_date
      (serve "")
      (parsed [mk_raw "mc.hypixel.net" (timestamp_of 2024 3 5 23 30) (Some 10);
               mk_raw "mc.hypixel.net" (timestamp_of 2024 3 6 0 10) (Some 20)])
      (ymd2ord 2024 3 5)
    = Ok (Some [(timestamp_of 2024 3 5 23 0, Some 10)]))
    by (vm_compute; reflexivity).
  split; [exact Hfetch|].
  destruct (fetched_samples_on_requested_date _ _ _ _ Hfetch) as [Hon Hoff].
  split.
  - exact (Hon (timestamp_of 2024 3 5 23 0, Some 10) (or_introl eq_refl)).
  - apply Hoff. vm_compute. discriminate.
Defined.

Lemma fetched_series_spans_reported_hours_witness :
  exists response rows,
    serve "" (url_of (ymd2ord 2024 3 5)) = Ok response /\
    parsed [mk_raw "mc.hypixel.net" (timestamp_of 2024 3 5 0 0) (Some 10);
            mk_raw "mc.hypixel.net" (timestamp_of 2024 3 5 3 0) (Some 20)]
           (text response) = Ok rows /\
    map fst [(timestamp_of 2024 3 5 0 0, Some 10);
             (timestamp_of 2024 3 5 1 0, None);
             (timestamp_of 2024 3 5 2 0, None);
             (timestamp_of 2024 3 5 3 0, Some 20)]
    = filter (fun t => dt_date_of t =? ymd2ord 2024 3 5)
             (hour_bins (map fst (target_samples rows))) /\
    (counts_exact (target_samples rows) ->
     forall t v,
       In (t, v) [(timestamp_of 2024 3 5 0 0, Some 10);
                  (timestamp_of 2024 3 5 1 0, None);
                  (timestamp_of 2024 3 5 2 0, None);
                  (timestamp_of 2024 3 5 3 0, Some 20)] <->
       (target_samples rows <> [] /\ aligned t /\
        floor_h (index_min (map fst (target_samples rows))) <= t
          <= floor_h (index_max (map fst (target_samples rows)))) /\
       dt_date_of t = ymd2ord 2024 3 5 /\
       hourly_peak (target_samples rows) t v).
Proof.
  refine (fetched_series_spans_reported_hours
    (serve "")
    (parsed [mk_raw "mc.hypixel.net" (timestamp_of 2024 3 5 0 0) (Some 10);
             mk_raw "mc.hypixel.net" (timestamp_of 2024 3 5 3 0) (Some 20)])
    (ymd2ord 2024 3 5) _ _).
  vm_compute. reflexivity.
Defined.

(** C9 as stated fails: the file reports the server at 00:00 and 03:00
    only, and the returned series holds 01:00 and 02:00 with a missing
    value. *)
Lemma fetched_series_holds_missing_hours :
  target_samples
    [mk_raw "mc.hypixel.net" (timestamp_of 2024 3 5 0 0) (Some 10);
     mk_raw "play.example.org" (timestamp_of 2024 3 5 1 0) (Some 99);
     mk_raw "mc.hypixel.net" (timestamp_of 2024 3 5 3 0) (Some 20)]
  = [(timestamp_of 2024 3 5 0 0, Some 10);
     (timestamp_of 2024 3 5 3 0, Some 20)] /\
  get_data_for_date
    (serve "")
    (parsed [mk_raw "mc.hypixel.net" (timestamp_of 2024 3 5 0 0) (Some 10);
             mk_raw "play.example.org" (timestamp_of 2024 3 5 1 0) (Some 99);
             mk_raw "mc.hypixel.net" (timestamp_of 2024 3 5 3 0) (Some 20)])
    (ymd2ord 2024 3 5)
  = Ok (Some [(timestamp_of 2024 3 5 0 0, Some 10);
              (timestamp_of 2024 3 5 1 0, None);
              (timestamp_of 2024 3 5 2 0, None);
              (timestamp_of 2024 3 5 3 0, Some 20)]).
Proof. vm_compute. split; reflexivity. Qed.

Lemma fetch_without_server_rows_witness :
  get_data_for_date
    (serve "")
    (parsed [mk_raw "play.example.org" (timestamp_of 2024 3 5 1 0) (Some 99)])
    (ymd2ord 2024 3 5)
  = Ok (Some []).
Proof.
  refine (proj1 (fetch_without_server_rows
    (serve "")
    (parsed [mk_raw "play.example.org" (timestamp_of 2024 3 5 1 0) (Some 99)])
    (ymd2ord 2024 3 5) (mk_response 200 "")
    [mk_raw "play.example.org" (timestamp_of 2024 3 5 1 0) (Some 99)]
    _ _ _)).
  - reflexivity.
  - reflexivity.
  - intros r [<-|[]]. cbn. discriminate.
Defined.

(* ================================================================== *)
(** * The end of a run *)

Section MostRecent.

Variable requests_get : string -> result Response.
Variable read_csv : string -> result (list raw_row).

(** Both modes end in the merge: what a run writes is what the merge
    returned on the baseline and the frames fetched. *)
Lemma call_ends_in_merge
      (ingestion_type : string) (now : datetime)
      (legacy_df old_df out : DataFrame) :
  call requests_get read_csv ingestion_type now legacy_df old_df = Ok out ->
  exists dfs, merge_frames dfs = Ok out.
Proof.
  unfold call, get_all_historical_data, get_most_recent_data.
  destruct (String.eqb ingestion_type "historical").
  - destruct (fetch_dates _ _ _ _) as [dfs|e]; cbn; [eauto | discriminate].
  - destruct (latest_date_of old_df) as [latest|e]; cbn; [|discriminate].
    destruct (fetch_dates _ _ _ _) as [dfs|e]; cbn; [eauto | discriminate].
Qed.

End MostRecent.

(* ================================================================== *)
(** * Further properties of the merge *)

Lemma merge_frames_index (dfs : list DataFrame) (out : DataFrame) :
  merge_frames dfs = Ok out -> map fst out = hour_bins (timestamps dfs).
Proof.
  intros H. apply merge_frames_Ok in H. destruct H as (_ & _ & ->).
  apply grid_of_index.
Qed.

Lemma merge_frames_MergedSeries (dfs : list DataFrame) (out : DataFrame) :
  merge_frames dfs = Ok out -> MergedSeries out.
Proof.
  intros H. pose proof (merge_frames_index _ _ H) as Hidx.
  destruct (hour_bins_grid (timestamps dfs)) as (t0 & Ht0 & E).
  exists t0. split; [exact Ht0|].
  etransitivity; [exact Hidx|]. etransitivity; [exact E|].
  f_equal. rewrite <- Hidx. apply length_map.
Qed.

(** The merge does not return an empty frame. *)
Lemma merge_frames_nonempty (dfs : list DataFrame) (out : DataFrame) :
  merge_frames dfs = Ok out -> out <> [].
Proof.
  intros H E. pose proof (merge_frames_index _ _ H) as Hidx.
  apply merge_frames_Ok in H. destruct H as (Hne & _).
  rewrite E in Hidx. symmetry in Hidx.
  apply (proj1 (hour_bins_nil_iff _)) in Hidx. contradiction.
Qed.


Lemma NoDup_dec_Z (ax : list Timestamp) : NoDup ax \/ ~ NoDup ax.
Proof.
  destruct (is_unique ax) eqn:E.
  - left. now apply is_unique_NoDup.
  - right. intros H. apply is_unique_NoDup in H. congruence.
Qed.



Lemma merge_frames_keeps (dfs : list DataFrame) (out : DataFrame)
      (t : Timestamp) (v : option Z) :
  merge_frames dfs = Ok out -> In (t, v) (concat dfs) -> aligned t ->
  In (t, v) out.
Proof.
  intros Hrun Hin Hal. apply merge_frames_Ok in Hrun.
  destruct Hrun as (_ & Hnd & ->). apply grid_of_In. split.
  - rewrite <- (floor_h_of_aligned t Hal). apply hour_bins_cover.
    now apply In_keys with (v := v).
  - symmetry. now apply loc_of_In.
Qed.

(** X2: when the merge returns, every sample on the hour that it
    received, with a count that is exact in float64, is a row of the
    result with its value unchanged. *)
Theorem merge_keeps_samples_on_the_hour
        (dfs : list DataFrame) (out : DataFrame) (t : Timestamp)
        (v : option Z)
        (Hrun : merge_frames dfs = Ok out)
        (Hin : In (t, v) (concat dfs))
        (Hal : aligned t)
        (Hexact : count_exact v) :
  In (t, v) out.
Proof. exact (merge_frames_keeps dfs out t v Hrun Hin Hal). Qed.

Lemma merge_keeps_samples_on_the_hour_witness :
  In (timestamp_of 2024 3 5 3 0, Some 7)
     [(timestamp_of 2024 3 5 0 0, Some 5);
      (timestamp_of 2024 3 5 1 0, None);
      (timestamp_of 2024 3 5 2 0, None);
      (timestamp_of 2024 3 5 3 0, Some 7)].
Proof.
  refine (merge_keeps_samples_on_the_hour
    [[(timestamp_of 2024 3 5 0 0, Some 5)];
     [(timestamp_of 2024 3 5 3 0, Some 7)]] _ _ _ _ _ _ _).
  - vm_compute. reflexivity.
  - right. left. reflexivity.
  - vm_compute. reflexivity.
  - vm_compute. discriminate.
Defined.

(** X3: merging the merged series alone returns it unchanged: what a run
    writes, the next run reads back through the merge as it is. *)
Theorem merge_of_merged_is_identity
        (dfs : list DataFrame) (out : DataFrame)
        (Hrun : merge_frames dfs = Ok out) :
  merge_frames [out] = Ok out.
Proof.
  apply merge_frames_identity.
  - exact (merge_frames_nonempty _ _ Hrun).
  - exact (merge_frames_MergedSeries _ _ Hrun).
Qed.

Lemma merge_of_merged_is_identity_witness :
  merge_frames [[(timestamp_of 2024 3 5 0 0, Some 5);
                 (timestamp_of 2024 3 5 1 0, None);
                 (timestamp_of 2024 3 5 2 0, Some 7)]]
  = Ok [(timestamp_of 2024 3 5 0 0, Some 5);
        (timestamp_of 2024 3 5 1 0, None);
        (timestamp_of 2024 3 5 2 0, Some 7)].
Proof.
  refine (merge_of_merged_is_identity
    [[(timestamp_of 2024 3 5 2 0, Some 7)];
     [(timestamp_of 2024 3 5 0 0, Some 5)]] _ _).
  vm_compute. reflexivity.
Defined.

(** X4: a frame the merge returns is not empty: it has one row per hour
    from the hour of the earliest sample to the hour of the latest. *)
Theorem merge_size
        (dfs : list DataFrame) (out : DataFrame)
        (Hrun : merge_frames dfs = Ok out) :
  out <> [] /\
  Z.of_nat (length out)
  = (floor_h (index_max (timestamps dfs))
     - floor_h (index_min (timestamps dfs))) / HOUR + 1.
Proof.
  split; [exact (merge_frames_nonempty _ _ Hrun)|].
  pose proof (merge_frames_index _ _ Hrun) as H.
  apply merge_frames_Ok in Hrun. destruct Hrun as (Hne & _).
  assert (Hlen : length out = length (hour_bins (timestamps dfs)))
    by (rewrite <- H; symmetry; apply length_map).
  rewrite Hlen.
  rewrite hour_bins_hours_from, hours_from_length by assumption.
  assert (Hle : index_min (timestamps dfs) <= index_max (timestamps dfs))
    by (apply index_min_le, index_max_In; exact Hne).
  apply floor_h_mono in Hle.
  rewrite bin_count_eq. unfold floor_h in *.
  replace (HOUR * (index_max (timestamps dfs) / HOUR)
           - HOUR * (index_min (timestamps dfs) / HOUR))
    with ((index_max (timestamps dfs) / HOUR
           - index_min (timestamps dfs) / HOUR) * HOUR) by lia.
  rewrite Z.div_mul by discriminate.
  pose proof HOUR_pos. nia.
Qed.

Lemma merge_size_witness :
  [(timestamp_of 2024 3 5 0 0, Some 5);
   (timestamp_of 2024 3 5 1 0, None);
   (timestamp_of 2024 3 5 2 0, Some 7)] <> [].
Proof.
  refine (proj1 (merge_size
    [[(timestamp_of 2024 3 5 2 0, Some 7)];
     [(timestamp_of 2024 3 5 0 0, Some 5)]] _ _)).
  vm_compute. reflexivity.
Defined.

Lemma same_key_same_row (l : list Row) (x y : Row) :
  NoDup (map fst l) -> In x l -> In y l -> fst x = fst y -> x = y.
Proof.
  intros Hnd Hx Hy E. destruct x as [t v], y as [t' w]. cbn in E. subst t'.
  f_equal. rewrite <- (loc_of_In l t v Hnd Hx). now apply loc_of_In.
Qed.

(** A frame with pairwise distinct timestamps has one sorted order. *)
Lemma sorted_perm_unique (l l' : list Row) :
  StronglySorted (key_le fst) l -> StronglySorted (key_le fst) l' ->
  Permutation l l' -> NoDup (map fst l) -> l = l'.
Proof.
  revert l'. induction l as [|x l IH]; intros l' Hs Hs' HP Hnd.
  - apply Permutation_nil in HP. now subst.
  - destruct l' as [|y l'].
    { apply Permutation_sym, Permutation_nil in HP. discriminate HP. }
    inversion Hs as [|? ? Hsl Hall]; subst.
    inversion Hs' as [|? ? Hsl' Hall']; subst.
    rewrite Forall_forall in Hall, Hall'.
    assert (Hxy : fst y <= fst x).
    { assert (Hin : In x (y :: l'))
        by (apply (Permutation_in _ HP); now left).
      destruct Hin as [->|Hin]; [lia | exact (Hall' x Hin)]. }
    assert (Hyx : fst x <= fst y).
    { assert (Hin : In y (x :: l))
        by (apply (Permutation_in _ (Permutation_sym HP)); now left).
      destruct Hin as [->|Hin]; [lia | exact (Hall y Hin)]. }
    assert (x = y).
    { apply (same_key_same_row (x :: l)); auto.
      - now left.
      - apply (Permutation_in _ (Permutation_sym HP)). now left.
      - lia. }
    subst y. f_equal. apply Permutation_cons_inv in HP.
    apply IH; auto. cbn in Hnd. now inversion Hnd.
Qed.

(** X5: the merge does not depend on the order in which the frames and
    their rows arrive: two lists of frames with the same rows give the same
    result, or raise alike. *)
Theorem merge_ignores_order
        (dfs dfs' : list DataFrame)
        (Hsame : Permutation (concat dfs) (concat dfs')) :
  merge_frames dfs = merge_frames dfs'.
Proof.
  assert (HPk : Permutation (timestamps dfs) (timestamps dfs'))
    by (apply Permutation_map; exact Hsame).
  destruct (NoDup_dec_Z (timestamps dfs)) as [Hnd|Hdup].
  - assert (E : sort_values fst (concat dfs) = sort_values fst (concat dfs')).
    { apply sorted_perm_unique.
      - apply sort_values_sorted.
      - apply sort_values_sorted.
      - rewrite !sort_values_perm. exact Hsame.
      - apply (Permutation_NoDup (Permutation_sym (sorted_keys_perm _))).
        exact Hnd. }
    unfold merge_frames. now rewrite E.
  - rewrite (merge_frames_duplicates dfs Hdup).
    symmetry. apply merge_frames_duplicates.
    intros Hnd. apply Hdup.
    exact (Permutation_NoDup (Permutation_sym HPk) Hnd).
Qed.

Lemma merge_ignores_order_witness :
  merge_frames [[(timestamp_of 2024 3 5 3 0, Some 7)];
                [(timestamp_of 2024 3 5 0 0, Some 5)]]
  = merge_frames [[(timestamp_of 2024 3 5 0 0, Some 5);
                   (timestamp_of 2024 3 5 3 0, Some 7)]].
Proof.
  refine (merge_ignores_order
    [[(timestamp_of 2024 3 5 3 0, Some 7)];
     [(timestamp_of 2024 3 5 0 0, Some 5)]]
    [[(timestamp_of 2024 3 5 0 0, Some 5);
      (timestamp_of 2024 3 5 3 0, Some 7)]] _).
  cbn [concat app]. apply perm_swap.
Defined.

(* ================================================================== *)
(** * Further properties of the fetch *)

Lemma resample_max_perm (df df' : DataFrame) :
  Permutation df df' -> resample_max df = resample_max df'.
Proof.
  intros HP. unfold resample_max.
  rewrite (hour_bins_perm _ _ (Permutation_map fst HP)).
  apply map_ext. intros b. f_equal.
  eapply hourly_peak_unique; [apply nanmax_hourly_peak|].
  eapply hourly_peak_incl; [|apply nanmax_hourly_peak].
  intros r. split; apply Permutation_in;
    [apply Permutation_sym|]; exact HP.
Qed.

(** X6: the series a fetch returns depends on the samples the file
    reports for the server only, not on the order of the rows in the file
    nor on the rows of other servers. *)
Theorem fetch_ignores_row_order
        (requests_get : string -> result Response)
        (read_csv read_csv' : string -> result (list raw_row))
        (d : date) (response : Response) (rows rows' : list raw_row)
        (Hget : requests_get (url_of d) = Ok response)
        (Hread : read_csv (text response) = Ok rows)
        (Hread' : read_csv' (text response) = Ok rows')
        (Hsame : Permutation (target_samples rows) (target_samples rows')) :
  get_data_for_date requests_get read_csv d
  = get_data_for_date requests_get read_csv' d.
Proof.
  unfold get_data_for_date, hourly_peaks. rewrite Hget. cbn.
  rewrite Hread, Hread'. cbn. do 3 f_equal.
  apply resample_max_perm.
  rewrite !sort_values_perm. exact Hsame.
Qed.

Lemma fetch_ignores_row_order_witness :
  get_data_for_date (serve "")
    (parsed [mk_raw "mc.hypixel.net" (timestamp_of 2024 3 5 3 10) (Some 20);
             mk_raw "play.example.org" (timestamp_of 2024 3 5 1 0) (Some 99);
             mk_raw "mc.hypixel.net" (timestamp_of 2024 3 5 0 5) (Some 10)])
    (ymd2ord 2024 3 5)
  = get_data_for_date (serve "")
    (parsed [mk_raw "mc.hypixel.net" (timestamp_of 2024 3 5 0 5) (Some 10);
             mk_raw "mc.hypixel.net" (timestamp_of 2024 3 5 3 10) (Some 20)])
    (ymd2ord 2024 3 5).
Proof.
  refine (fetch_ignores_row_order (serve "") _ _ (ymd2ord 2024 3 5)
            (mk_response 200 "") _ _ _ _ _ _).
  - reflexivity.
  - reflexivity.
  - reflexivity.
  - apply perm_swap.
Defined.

Lemma StronglySorted_filter_lt (f : Z -> bool) (l : list Z) :
  StronglySorted Z.lt l -> StronglySorted Z.lt (filter f l).
Proof.
  induction 1 as [|x l Hs IH Hall]; cbn; [constructor|].
  destruct (f x); [|exact IH]. constructor; [exact IH|].
  rewrite Forall_forall in *. intros y Hy. apply filter_In in Hy.
  now apply Hall.
Qed.

Lemma StronglySorted_app_lt (l1 l2 : list Z) :
  StronglySorted Z.lt l1 -> StronglySorted Z.lt l2 ->
  (forall x y, In x l1 -> In y l2 -> x < y) ->
  StronglySorted Z.lt (l1 ++ l2).
Proof.
  induction 1 as [|x l1 Hs IH Hall]; cbn; intros H2 Hlt; [exact H2|].
  constructor.
  - apply IH; [exact H2|]. intros a b Ha Hb. apply Hlt; [now right|exact Hb].
  - apply Forall_app. split; [exact Hall|].
    apply Forall_forall. intros y Hy. apply Hlt; [now left|exact Hy].
Qed.


(** The timestamps of the calendar day [d]. *)
Lemma dt_date_of_day (t : Timestamp) (d : date) :
  dt_date_of t = d <->
  (d - ymd2ord 1970 1 1) * DAY <= t < (d - ymd2ord 1970 1 1) * DAY + DAY.
Proof.
  unfold dt_date_of.
  pose proof (Z.div_mod t DAY ltac:(discriminate)) as Hdm.
  pose proof (Z.mod_pos_bound t DAY ltac:(reflexivity)) as Hb.
  split; intros H.
  - assert (t / DAY = d - ymd2ord 1970 1 1) by lia. nia.
  - assert (t / DAY = d - ymd2ord 1970 1 1); [|lia].
    symmetry. apply (Z.div_unique t DAY _ (t - (d - ymd2ord 1970 1 1) * DAY));
      lia.
Qed.

(** Strictly ascending timestamps on the hour are at most as many as the
    hours of the range that holds them. *)
Lemma sorted_hours_length (l : list Timestamp) :
  StronglySorted Z.lt l -> Forall aligned l ->
  forall lo hi, (forall x, In x l -> lo <= x / HOUR < hi) ->
                Z.of_nat (length l) <= Z.max 0 (hi - lo).
Proof.
  induction 1 as [|x l Hs IH Hall]; intros Hal lo hi Hb.
  - cbn. lia.
  - inversion Hal as [|? ? Hx Hal']; subst.
    rewrite Forall_forall in Hall, Hal'.
    assert (Htail : forall y, In y l -> x / HOUR + 1 <= y / HOUR < hi).
    { intros y Hy. pose proof (Hall y Hy) as Hlt.
      pose proof (Hb y (or_intror Hy)) as Hby.
      pose proof (floor_h_of_aligned x Hx) as Ex.
      pose proof (floor_h_of_aligned y (Hal' y Hy)) as Ey.
      unfold floor_h in Ex, Ey. pose proof HOUR_pos. nia. }
    specialize (IH ltac:(now apply Forall_forall) _ _ Htail).
    pose proof (Hb x (or_introl eq_refl)).
    cbn [length]. lia.
Qed.

Section FetchShape.

Variable requests_get : string -> result Response.
Variable read_csv : string -> result (list raw_row).

Lemma fetched_frame_keys (d : date) (df : DataFrame) :
  get_data_for_date requests_get read_csv d = Ok (Some df) ->
  StronglySorted Z.lt (map fst df) /\
  Forall aligned (map fst df) /\
  Forall (fun t => dt_date_of t = d) (map fst df).
Proof.
  intros H. destruct (fetch_Some _ _ d df H) as (response & rows & _ & _ & ->).
  rewrite (resample_max_filter_index (fun t => dt_date_of t =? d)).
  split; [|split].
  - apply StronglySorted_filter_lt, hour_bins_sorted.
  - apply Forall_forall. intros t Ht. apply filter_In in Ht.
    destruct Ht as [Ht _]. now apply hour_bins_In in Ht.
  - apply Forall_forall. intros t Ht. apply filter_In in Ht.
    destruct Ht as [_ Ht]. now apply Z.eqb_eq.
Qed.

(** X7: the series a successful fetch returns has its timestamps on the
    hour, strictly ascending (so no hour twice), within the requested day,
    and at most 24 rows. *)
Theorem fetched_series_shape
        (d : date) (df : DataFrame)
        (Hfetch : get_data_for_date requests_get read_csv d = Ok (Some df)) :
  StronglySorted Z.lt (map fst df) /\
  Forall aligned (map fst df) /\
  (forall t, In t (map fst df) ->
             (d - ymd2ord 1970 1 1) * DAY <= t
             < (d - ymd2ord 1970 1 1 + 1) * DAY) /\
  (length df <= 24)%nat.
Proof.
  destruct (fetched_frame_keys d df Hfetch) as (Hs & Hal & Hd).
  rewrite Forall_forall in Hd.
  split; [exact Hs|]. split; [exact Hal|]. split.
  - intros t Ht. apply Hd, dt_date_of_day in Ht. lia.
  - pose proof (sorted_hours_length _ Hs Hal
                  ((d - ymd2ord 1970 1 1) * 24)
                  ((d - ymd2ord 1970 1 1) * 24 + 24)) as Hlen.
    rewrite length_map in Hlen.
    assert (Z.of_nat (length df) <= 24); [|lia].
    etransitivity; [apply Hlen|lia].
    intros t Ht. apply Hd, dt_date_of_day in Ht.
    change DAY with (24 * HOUR) in Ht.
    pose proof HOUR_pos.
    split.
    + apply Z.div_le_lower_bound; lia.
    + apply Z.div_lt_upper_bound; lia.
Qed.

End FetchShape.

Lemma fetched_series_shape_witness :
  Nat.le (length [(timestamp_of 2024 3 5 23 0, Some 10)]) 24%nat.
Proof.
  refine (proj2 (proj2 (proj2 (fetched_series_shape
    (serve "")
    (parsed [mk_raw "mc.hypixel.net" (timestamp_of 2024 3 5 23 30) (Some 10);
             mk_raw "mc.hypixel.net" (timestamp_of 2024 3 6 0 10) (Some 20)])
    (ymd2ord 2024 3 5) _ _)))).
  vm_compute. reflexivity.
Defined.

(* ================================================================== *)
(** * The fetch loop and the runs *)

Lemma StronglySorted_app_inv_lt (l1 l2 : list Z) (d : Z) :
  StronglySorted Z.lt (l1 ++ d :: l2) -> forall x, In x l1 -> x < d.
Proof.
  induction l1 as [|a l1 IH]; cbn; intros Hs x Hx; [destruct Hx|].
  inversion Hs as [|? ? Hs' Hall]; subst.
  destruct Hx as [->|Hx]; [|now apply IH].
  rewrite Forall_forall in Hall. apply Hall. apply in_or_app.
  right. now left.
Qed.

Section Runs.

Variable requests_get : string -> result Response.
Variable read_csv : string -> result (list raw_row).

Lemma fetch_dates_app (l1 l2 : list date) (acc : list DataFrame) :
  fetch_dates requests_get read_csv (l1 ++ l2) acc
  = (acc' <- fetch_dates requests_get read_csv l1 acc ;;
     fetch_dates requests_get read_csv l2 acc').
Proof.
  revert acc. induction l1 as [|d l1 IH]; intros acc; [reflexivity|].
  cbn [app fetch_dates].
  destruct (get_data_for_date requests_get read_csv d) as [o|e]; cbn;
    [apply IH | reflexivity].
Qed.

Lemma fetch_dates_collects (dl : list date) (acc : list DataFrame) :
  (forall d, In d dl -> exists response,
        requests_get (url_of d) = Ok response) ->
  fetch_dates requests_get read_csv dl acc
  = Ok (acc ++ fetched_frames requests_get read_csv dl).
Proof.
  revert acc. induction dl as [|d dl IH]; intros acc Hnet.
  - cbn. now rewrite app_nil_r.
  - destruct (Hnet d (or_introl eq_refl)) as (response & Hget).
    destruct (fetch_after_response requests_get read_csv d response Hget)
      as (o & Ho).
    cbn [fetch_dates fetched_frames flat_map]. rewrite Ho. cbn [bind].
    rewrite IH by (intros d' Hd'; apply Hnet; now right).
    fold (fetched_frames requests_get read_csv dl).
    destruct o as [df|]; [now rewrite <- app_assoc | reflexivity].
Qed.

(** X8: when every request of the date list returns, the loop returns the
    baseline followed by the frames of exactly the dates that parsed, in
    the order of the dates: a date whose file does not parse is left out
    and does not stop the loop. *)
Theorem fetch_loop_collects
        (dl : list date) (acc : list DataFrame)
        (Hnet : forall d, In d dl ->
                          exists response,
                            requests_get (url_of d) = Ok response) :
  fetch_dates requests_get read_csv dl acc
  = Ok (acc ++ fetched_frames requests_get read_csv dl) /\
  (forall df, In df (fetched_frames requests_get read_csv dl) <->
              exists d, In d dl /\
                        get_data_for_date requests_get read_csv d
                        = Ok (Some df)).
Proof.
  split; [now apply fetch_dates_collects|].
  intros df. unfold fetched_frames. rewrite in_flat_map.
  split; intros (d & Hd & H); exists d; (split; [exact Hd|]).
  - destruct (get_data_for_date requests_get read_csv d) as [[df'|]|e];
      try destruct H.
    + now subst.
    + destruct H.
  - rewrite H. now left.
Qed.

Lemma fetch_loop_aborts_aux
      (l1 l2 : list date) (d : date) (e : exn) (acc : list DataFrame) :
  (forall d', In d' l1 ->
              exists response, requests_get (url_of d') = Ok response) ->
  requests_get (url_of d) = Raise e ->
  fetch_dates requests_get read_csv (l1 ++ d :: l2) acc = Raise e.
Proof.
  intros Hbefore Hraise.
  rewrite fetch_dates_app, (fetch_dates_collects l1 acc Hbefore).
  cbn [bind fetch_dates]. unfold get_data_for_date. rewrite Hraise.
  reflexivity.
Qed.

(** X9: a request that raises stops the loop: when the requests of the
    dates before [d] return and the request of [d] raises [e], the loop
    raises [e], whatever dates follow and whatever was collected. *)
Theorem fetch_loop_aborts
        (l1 l2 : list date) (d : date) (e : exn) (acc : list DataFrame)
        (Hbefore : forall d', In d' l1 ->
                              exists response,
                                requests_get (url_of d') = Ok response)
        (Hraise : requests_get (url_of d) = Raise e) :
  fetch_dates requests_get read_csv (l1 ++ d :: l2) acc = Raise e.
Proof. exact (fetch_loop_aborts_aux l1 l2 d e acc Hbefore Hraise). Qed.

(** X10: in historical mode, a request that raises on a planned date
    makes the whole run raise that exception, when the requests of the
    earlier planned dates return: nothing is merged. *)
Theorem historical_run_aborts
        (now : datetime) (legacy_df : DataFrame) (d : date) (e : exn)
        (Hplanned : export_start_date <= d <= get_most_recent_date now)
        (Hbefore : forall d', export_start_date <= d' < d ->
                              exists response,
                                requests_get (url_of d') = Ok response)
        (Hraise : requests_get (url_of d) = Raise e) :
  get_all_historical_data requests_get read_csv now legacy_df = Raise e.
Proof.
  unfold get_all_historical_data.
  assert (Hin : In d (date_list_historical export_start_date
                        (get_most_recent_date now)))
    by now apply date_list_historical_In.
  destruct (in_split _ _ Hin) as (l1 & l2 & Hsplit).
  pose proof (date_list_historical_sorted export_start_date
                (get_most_recent_date now)) as Hs.
  rewrite Hsplit in Hs |- *.
  rewrite (fetch_loop_aborts_aux l1 l2 d e [legacy_df]);
    [reflexivity| |exact Hraise].
  intros d' Hd'. apply Hbefore. split.
  - assert (In d' (date_list_historical export_start_date
                     (get_most_recent_date now)))
      by (rewrite Hsplit; apply in_or_app; now left).
    now apply date_list_historical_In in H.
  - exact (StronglySorted_app_inv_lt _ _ _ Hs d' Hd').
Qed.

End Runs.

(* ================================================================== *)
(** * The range of the most-recent mode *)

Section MostRecentRange.

Variable requests_get : string -> result Response.
Variable read_csv : string -> result (list raw_row).



End MostRecentRange.



Lemma fetch_loop_collects_witness :
  fetch_dates (serve "")
    (parsed [mk_raw "mc.hypixel.net" (timestamp_of 2024 3 5 0 0) (Some 10)])
    [ymd2ord 2024 3 4; ymd2ord 2024 3 5]
    [[(timestamp_of 2024 3 3 23 0, Some 1)]]
  = Ok ([[(timestamp_of 2024 3 3 23 0, Some 1)]]
        ++ fetched_frames (serve "")
             (parsed [mk_raw "mc.hypixel.net"
                        (timestamp_of 2024 3 5 0 0) (Some 10)])
             [ymd2ord 2024 3 4; ymd2ord 2024 3 5]).
Proof.
  refine (proj1 (fetch_loop_collects (serve "") _ _ _ _)).
  intros d _. exists (mk_response 200 ""). reflexivity.
Defined.

Lemma fetch_loop_aborts_witness :
  fetch_dates (down_on (url_of (ymd2ord 2024 3 5)) Timeout) (parsed [])
    ([ymd2ord 2024 3 4] ++ ymd2ord 2024 3 5 :: [ymd2ord 2024 3 6])
    [[(timestamp_of 2024 3 3 23 0, Some 1)]]
  = Raise Timeout.
Proof.
  refine (fetch_loop_aborts
    (down_on (url_of (ymd2ord 2024 3 5)) Timeout) (parsed [])
    [ymd2ord 2024 3 4] [ymd2ord 2024 3 6] (ymd2ord 2024 3 5) Timeout _ _ _).
  - intros d' [<-|[]]. exists (mk_response 200 ""). vm_compute. reflexivity.
  - vm_compute. reflexivity.
Defined.

Lemma historical_run_aborts_witness :
  get_all_historical_data (unreachable ConnectionError) (parsed [])
    (utc 2020 8 3 12 0) [(timestamp_of 2020 7 31 23 0, Some 1)]
  = Raise ConnectionError.
Proof.
  refine (historical_run_aborts (unreachable ConnectionError) (parsed [])
    (utc 2020 8 3 12 0) _ (ymd2ord 2020 8 1) ConnectionError _ _ _).
  - split; apply Z.leb_le; vm_compute; reflexivity.
  - intros d' Hd'. exfalso. unfold export_start_date in Hd'. lia.
  - reflexivity.
Defined.

(* ================================================================== *)
(** * Runs that extend a baseline *)

Section RunsExtend.

Variable requests_get : string -> result Response.
Variable read_csv : string -> result (list raw_row).






End RunsExtend.



(* ================================================================== *)
(** * The plans of successive runs, the modes and the script *)

Lemma sorted_lt_ext (l l' : list Z) :
  StronglySorted Z.lt l -> StronglySorted Z.lt l' ->
  (forall x, In x l <-> In x l') -> l = l'.
Proof.
  intros Hs. revert l'. induction Hs as [|x l Hs IH Hall]; intros l' Hs' Hext.
  - destruct l' as [|y l']; [reflexivity|].
    exfalso. apply (Hext y). now left.
  - destruct Hs' as [|y l' Hs' Hall'].
    { exfalso. apply (Hext x). now left. }
    rewrite Forall_forall in Hall, Hall'.
    assert (x = y).
    { destruct (proj1 (Hext x) (or_introl eq_refl)) as [E|Hx]; [auto|].
      destruct (proj2 (Hext y) (or_introl eq_refl)) as [E|Hy]; [auto|].
      pose proof (Hall' x Hx). pose proof (Hall y Hy). lia. }
    subst y. f_equal. apply IH; [exact Hs'|].
    intros z. split; intros Hz.
    + destruct (proj1 (Hext z) (or_intror Hz)) as [E|H]; [|exact H].
      subst z. pose proof (Hall x Hz). lia.
    + destruct (proj2 (Hext z) (or_intror Hz)) as [E|H]; [|exact H].
      subst z. pose proof (Hall' x Hz). lia.
Qed.

(** X13: successive runs skip no date. When a historical run planned the
    dates from [a] to [b] and the latest date its output records is [l]
    (no later than [b]), a most-recent run with cutoff [c] plans the dates
    after [l] up to [c]: every date from [a] to [c] is in one of the two
    plans, a date is in both only if it lies after [l] (it brought no
    row), and when [l] is [b] the two plans together are the plan of one
    historical run from [a] to [c]. *)
Theorem plans_compose (a l b c : date)
        (Hal : a - 1 <= l) (Hlb : l <= b) (Hbc : b <= c) :
  (forall d, a <= d <= c ->
             In d (date_list_historical a b)
             \/ In d (date_list_most_recent l c)) /\
  (forall d, In d (date_list_historical a b) ->
             In d (date_list_most_recent l c) -> l < d <= b) /\
  (l = b ->
   date_list_historical a c
   = date_list_historical a b ++ date_list_most_recent l c).
Proof.
  split; [|split].
  - intros d Hd. rewrite date_list_historical_In, date_list_most_recent_In.
    lia.
  - intros d H1 H2. apply date_list_historical_In in H1.
    apply date_list_most_recent_In in H2. lia.
  - intros ->. apply sorted_lt_ext.
    + apply date_list_historical_sorted.
    + apply StronglySorted_app_lt.
      * apply date_list_historical_sorted.
      * apply date_list_most_recent_sorted.
      * intros x y Hx Hy. apply date_list_historical_In in Hx.
        apply date_list_most_recent_In in Hy. lia.
    + intros x. rewrite in_app_iff, !date_list_historical_In,
        date_list_most_recent_In. lia.
Qed.

Lemma plans_compose_witness :
  date_list_historical (ymd2ord 2020 8 1) (ymd2ord 2020 8 5)
  = date_list_historical (ymd2ord 2020 8 1) (ymd2ord 2020 8 3)
    ++ date_list_most_recent (ymd2ord 2020 8 3) (ymd2ord 2020 8 5).
Proof.
  refine (proj2 (proj2 (plans_compose (ymd2ord 2020 8 1) (ymd2ord 2020 8 3)
                          (ymd2ord 2020 8 3) (ymd2ord 2020 8 5) _ _ _))
            eq_refl);
    apply Z.leb_le; vm_compute; reflexivity.
Defined.

(** The constructor accepts the ingestion types "historical" and
    "most_recent" and raises [ValueError] on every other string. *)
Lemma init_modes_aux (ingestion_type : string) :
  (init ingestion_type = Ok ingestion_type <->
   ingestion_type = "historical"%string
   \/ ingestion_type = "most_recent"%string) /\
  (init ingestion_type = Raise ValueError <->
   ingestion_type <> "historical"%string
   /\ ingestion_type <> "most_recent"%string).
Proof.
  unfold init. cbn [existsb].
  destruct (String.eqb_spec ingestion_type "historical") as [E1|E1];
    destruct (String.eqb_spec ingestion_type "most_recent") as [E2|E2];
    cbn [orb]; split; split; intros H;
    try discriminate H; try reflexivity; try tauto.
  all: destruct H as [H|H]; contradiction.
Qed.

Section Script.

Variable requests_get : string -> result Response.
Variable read_csv : string -> result (list raw_row).

(** X14: the script fetches and writes only when it is given exactly one
    argument that names a mode. With another number of arguments it prints
    the usage; with one argument that is not a mode it ends on
    [ValueError]; both whatever the network answers. A frame it writes is
    a merged series, which the merge of the next run gives back as it
    is. *)
Theorem main_outcomes
        (argv : list string) (now : datetime)
        (legacy_df old_df : DataFrame) :
  (length argv <> 2%nat ->
   main requests_get read_csv argv now legacy_df old_df = Usage) /\
  (length argv = 2%nat ->
   nth 1 argv ""%string <> "historical"%string ->
   nth 1 argv ""%string <> "most_recent"%string ->
   main requests_get read_csv argv now legacy_df old_df
   = Uncaught ValueError) /\
  (forall out,
      main requests_get read_csv argv now legacy_df old_df = Written out ->
      length argv = 2%nat /\
      (nth 1 argv ""%string = "historical"%string
       \/ nth 1 argv ""%string = "most_recent"%string) /\
      MergedSeries out /\
      merge_frames [out] = Ok out).
Proof.
  unfold main. split; [|split].
  - intros H. apply Nat.eqb_neq in H. now rewrite H.
  - intros H H1 H2. apply Nat.eqb_eq in H. rewrite H. cbn [negb].
    unfold init. cbn [existsb].
    apply String.eqb_neq in H1, H2. now rewrite H1, H2.
  - intros out. destruct (length argv =? 2)%nat eqn:E; cbn [negb];
      [|discriminate].
    apply Nat.eqb_eq in E.
    destruct (init (nth 1 argv ""%string)) as [t|e] eqn:Hinit; cbn [bind].
    + assert (Ht : t = nth 1 argv ""%string).
      { unfold init in Hinit.
        destruct (existsb _ _); [|discriminate Hinit]. congruence. }
      subst t.
      destruct (call requests_get read_csv (nth 1 argv ""%string) now
                  legacy_df old_df) as [df|e] eqn:Hcall; [|discriminate].
      intros [= <-].
      destruct (call_ends_in_merge _ _ _ _ _ _ _ Hcall) as (dfs & Hm).
      split; [exact E|]. split.
      * exact (proj1 (proj1 (init_modes_aux _)) Hinit).
      * split; [exact (merge_frames_MergedSeries _ _ Hm)|].
        apply merge_frames_identity;
          [exact (merge_frames_nonempty _ _ Hm)
          |exact (merge_frames_MergedSeries _ _ Hm)].
    + discriminate.
Qed.

End Script.

(* ================================================================== *)
(** * A legacy frame that overlaps the remote coverage *)

Lemma not_NoDup_app_common (l1 l2 : list Z) (x : Z) :
  In x l1 -> In x l2 -> ~ NoDup (l1 ++ l2).
Proof.
  intros H1 H2 Hnd. induction l1 as [|a l1 IH]; [destruct H1|].
  cbn in Hnd. apply NoDup_cons_iff in Hnd. destruct Hnd as [Hnotin Hnd].
  destruct H1 as [->|H1]; [|now apply IH].
  apply Hnotin. apply in_or_app. now right.
Qed.

Section Overlap.

Variable requests_get : string -> result Response.
Variable read_csv : string -> result (list raw_row).

(** X15: in historical mode, when every request returns and a fetched
    frame has a row at a timestamp the legacy frame also has, the run
    raises [ValueError]: nothing is written. *)
Theorem historical_run_raises_on_overlap
        (now : datetime) (legacy_df df : DataFrame) (d : date)
        (t : Timestamp) (v w : option Z)
        (Hnet : forall d',
            ymd2ord 2020 8 1 <= d' <= get_most_recent_date now ->
            exists response, requests_get (url_of d') = Ok response)
        (Hplanned : ymd2ord 2020 8 1 <= d <= get_most_recent_date now)
        (Hfetch : get_data_for_date requests_get read_csv d = Ok (Some df))
        (Hnew : In (t, v) df)
        (Hold : In (t, w) legacy_df) :
  get_all_historical_data requests_get read_csv now legacy_df
  = Raise ValueError.
Proof.
  unfold get_all_historical_data.
  rewrite (fetch_dates_collects requests_get read_csv)
    by (intros d' Hd'; apply Hnet; now apply date_list_historical_In in Hd').
  cbn [bind app]. apply merge_frames_duplicates.
  rewrite timestamps_cons.
  apply (not_NoDup_app_common _ _ t).
  - now apply In_keys with (v := w).
  - unfold timestamps. apply In_keys with (v := v).
    apply in_concat. exists df. split; [|exact Hnew].
    unfold fetched_frames. apply in_flat_map. exists d. split.
    + now apply date_list_historical_In.
    + rewrite Hfetch. now left.
Qed.

End Overlap.

Lemma historical_run_raises_on_overlap_witness :
  get_all_historical_data (serve "")
    (parsed [mk_raw "mc.hypixel.net" (timestamp_of 2020 8 1 1 30) (Some 10)])
    (utc 2020 8 2 12 0)
    [(timestamp_of 2020 8 1 1 0, Some 3)]
  = Raise ValueError.
Proof.
  refine (historical_run_raises_on_overlap (serve "")
    (parsed [mk_raw "mc.hypixel.net" (timestamp_of 2020 8 1 1 30) (Some 10)])
    (utc 2020 8 2 12 0)
    [(timestamp_of 2020 8 1 1 0, Some 3)]
    [(timestamp_of 2020 8 1 1 0, Some 10)]
    (ymd2ord 2020 8 1) (timestamp_of 2020 8 1 1 0) (Some 10) (Some 3)
    _ _ _ _ _).
  - intros d' _. exists (mk_response 200 ""). reflexivity.
  - split; apply Z.leb_le; vm_compute; reflexivity.
  - vm_compute. reflexivity.
  - left. reflexivity.
  - left. reflexivity.
Defined.
